(** * Raspberry Pi -> PLC temperature bridge: shallow embedding and properties

    Embedding of [ds18b20_modbus.py] and [weather_modbus.py]:
    the DS18B20 1-Wire reader, the wttr.in fetcher, the Modbus RTU writer
    and the two polling loops.

    Conventions
    - Python [float] is IEEE 754 binary64, given by [SpecFloat] at
      precision 53 and maximal exponent 1024.
    - Python [str] is [list ascii]; a character stands for the code point of
      the same number (payloads are taken in the range 0..255).
    - Exceptions, the interpreter state that the methods mutate and the
      external collaborators (sysfs files, serial port, HTTP endpoint) are
      explicit: a state-and-exception monad over a record of oracles. *)

From Stdlib Require Import Ascii String.
From Stdlib Require Import ZArith List Bool Lia Arith.
From Stdlib Require Import Floats.SpecFloat.
Import ListNotations.

Set Warnings "-register-all".

Local Open Scope Z_scope.

(** ** Python exceptions *)

Inductive PyExc : Type :=
| KeyError
| ValueError
| TypeError
| IndexError
| OverflowError
| RecursionError          (* e.g. response.json() on a deeply nested body *)
| OSError                 (* open() failures, serial.SerialException *)
| ModbusException         (* minimalmodbus: NoResponseError, InvalidResponseError, ... *)
| RequestsConnectionError (* requests.exceptions.ConnectionError *)
| RequestsTimeout         (* requests.exceptions.Timeout *)
| RequestsHTTPError       (* raised by raise_for_status *)
| RequestsJSONDecodeError (* raised by response.json() *)
| KeyboardInterrupt.

(** [isinstance(e, Exception)]: everything but [KeyboardInterrupt], which
    derives from [BaseException] only. *)
Definition is_Exception (e : PyExc) : bool :=
  match e with
  | KeyboardInterrupt => false
  | _ => true
  end.

(** [isinstance(e, requests.exceptions.RequestException)]. *)
Definition is_RequestException (e : PyExc) : bool :=
  match e with
  | RequestsConnectionError | RequestsTimeout
  | RequestsHTTPError | RequestsJSONDecodeError => true
  | _ => false
  end.

(** [isinstance(e, (KeyError, ValueError, TypeError))]. *)
Definition is_parse_error (e : PyExc) : bool :=
  match e with
  | KeyError | ValueError | TypeError => true
  | _ => false
  end.

Definition is_KeyboardInterrupt (e : PyExc) : bool :=
  match e with
  | KeyboardInterrupt => true
  | _ => false
  end.

(** Result of evaluating a pure Python expression. *)
Inductive PyRes (A : Type) : Type :=
| Ok (a : A)
| Err (e : PyExc).
Arguments Ok {A} a.
Arguments Err {A} e.

(** ** Floats *)

Module Float.

Definition float := spec_float.

Definition prec : Z := 53.
Definition emax : Z := 1024.

Definition mul : float -> float -> float := SFmul prec emax.
Definition div : float -> float -> float := SFdiv prec emax.

(** Nearest binary64 (ties to even) of the integer [z]; [neg_zero] is the
    sign given to a zero. *)
Definition of_Z_signed (neg_zero : bool) (z : Z) : float :=
  binary_normalize prec emax z 0 neg_zero.

Definition of_Z (z : Z) : float := of_Z_signed false z.

(** Nearest binary64 of [(-1)^neg * m * 10^e10], for [m >= 0]. *)
Definition of_decimal (neg : bool) (m : Z) (e10 : Z) : float :=
  match m with
  | Z0 => S754_zero neg
  | Zneg _ => S754_nan
  | Zpos _ =>
      match e10 with
      | Zneg k =>
          let '(q, e, l) :=
            SFdiv_core_binary prec emax m 0 (Z.pow_pos 10 k) 0 in
          binary_round_aux prec emax neg q e l
      | _ => binary_normalize prec emax (cond_Zopp neg (m * 10 ^ e10)) 0 neg
      end
  end.

Definition is_finite (f : float) : bool :=
  match f with
  | S754_zero _ | S754_finite _ _ _ => true
  | _ => false
  end.

(** Integer part, rounding toward zero, of a finite float. *)
Definition trunc (f : float) : option Z :=
  match f with
  | S754_zero _ => Some 0
  | S754_finite s m e =>
      Some (cond_Zopp s
              (match e with
               | Zneg k => Z.pos m / Z.pow_pos 2 k
               | _ => Z.pos m * 2 ^ e
               end))
  | _ => None
  end.

(** Python [int(f)]. *)
Definition to_int (f : float) : PyRes Z :=
  match f with
  | S754_nan => Err ValueError
  | S754_infinity _ => Err OverflowError
  | _ => match trunc f with Some z => Ok z | None => Err ValueError end
  end.

(** Python [float(z)] for an [int]. *)
Definition of_int (z : Z) : PyRes float :=
  match of_Z z with
  | S754_infinity _ => Err OverflowError
  | f => Ok f
  end.

Definition ten : float := Eval vm_compute in of_Z 10.
Definition thousand : float := Eval vm_compute in of_Z 1000.

End Float.

(** ** Strings *)

Definition str : Type := list ascii.

Definition lit (s : string) : str := list_ascii_of_string s.

Definition code (c : ascii) : N := N_of_ascii c.

Fixpoint str_eqb (a b : str) : bool :=
  match a, b with
  | [], [] => true
  | x :: a', y :: b' => Ascii.eqb x y && str_eqb a' b'
  | _, _ => false
  end.

(** [c.isspace()] for a code point below 256: what [str.strip()] removes. *)
Definition isspace (c : ascii) : bool :=
  let n := code c in
  ((9 <=? n) && (n <=? 13) || (28 <=? n) && (n <=? 32)
   || (n =? 133) || (n =? 160))%N.

(** The white space [float()] skips around its argument: tab to carriage
    return and the blank (C's [isspace]), and the white space beyond ASCII,
    which [float()] first turns into blanks. The separators U+001C..U+001F,
    which [str.strip()] removes, are not among them. *)
Definition float_isspace (c : ascii) : bool :=
  let n := code c in
  ((9 <=? n) && (n <=? 13) || (n =? 32) || (n =? 133) || (n =? 160))%N.

Definition isdigit (c : ascii) : bool :=
  let n := code c in ((48 <=? n) && (n <=? 57))%N.

Fixpoint lstrip (s : str) : str :=
  match s with
  | [] => []
  | c :: r => if isspace c then lstrip r else s
  end.

Definition rstrip (s : str) : str := rev (lstrip (rev s)).

(** [s.strip()] *)
Definition strip (s : str) : str := lstrip (rstrip s).

(** [s[-n:]] for [n > 0] *)
Definition last_chars (n : nat) (s : str) : str :=
  skipn (length s - n) s.

(** [s[k:]] for an index [k >= 0] *)
Definition slice_from (k : Z) (s : str) : str := skipn (Z.to_nat k) s.

Fixpoint starts_with (p s : str) : bool :=
  match p, s with
  | [], _ => true
  | _ :: _, [] => false
  | a :: p', b :: s' => Ascii.eqb a b && starts_with p' s'
  end.

(** [s.find(sub)], counting from index [i] of the whole string. *)
Fixpoint find_from (sub s : str) (i : Z) : Z :=
  match s with
  | [] => if starts_with sub [] then i else -1
  | _ :: r => if starts_with sub s then i else find_from sub r (i + 1)
  end.

Definition find (sub s : str) : Z := find_from sub s 0.

(** [s.split('/')[-1]]: what follows the last slash. *)
Fixpoint last_component (s : str) : str :=
  match s with
  | [] => []
  | c :: r =>
      if existsb (fun d => (code d =? 47)%N) r then last_component r
      else if (code c =? 47)%N then r else s
  end.

(** ** Python [float(str)] *)

Module FloatParse.

Fixpoint skip_spaces (s : str) : str :=
  match s with
  | [] => []
  | c :: r => if float_isspace c then skip_spaces r else s
  end.

(** The argument without the white space at its two ends. *)
Definition trim (s : str) : str := skip_spaces (rev (skip_spaces (rev s))).

Definition digit_val (c : ascii) : Z := Z.of_N (code c) - 48.

Definition digits_value (ds : str) : Z :=
  fold_left (fun acc c => 10 * acc + digit_val c) ds 0.

Fixpoint span_digits (s : str) : str * str :=
  match s with
  | c :: r =>
      if isdigit c then let '(ds, rest) := span_digits r in (c :: ds, rest)
      else ([], s)
  | [] => ([], [])
  end.

(** An underscore is accepted only between two digits. *)
Fixpoint underscores_ok (prev : option ascii) (s : str) : bool :=
  match s with
  | [] => match prev with
          | Some p => negb (code p =? 95)%N
          | None => true
          end
  | c :: r =>
      let prev_digit := match prev with Some p => isdigit p | None => false end in
      let prev_us := match prev with Some p => (code p =? 95)%N | None => false end in
      if (code c =? 95)%N then prev_digit && underscores_ok (Some c) r
      else if prev_us && negb (isdigit c) then false
      else underscores_ok (Some c) r
  end.

Definition remove_underscores (s : str) : str :=
  filter (fun c => negb (code c =? 95)%N) s.

(** Optional leading sign: [(negative, rest)]. *)
Definition split_sign (s : str) : bool * str :=
  match s with
  | c :: r =>
      if (code c =? 45)%N then (true, r)
      else if (code c =? 43)%N then (false, r)
      else (false, s)
  | [] => (false, [])
  end.

Definition lower (c : ascii) : ascii :=
  let n := code c in
  if ((65 <=? n) && (n <=? 90))%N then ascii_of_N (n + 32) else c.

(** [digits [. digits] [(e|E) [sign] digits]] with at least one mantissa
    digit, the whole string consumed: mantissa and decimal exponent. *)
Definition parse_decimal (s : str) : option (Z * Z) :=
  let '(ip, r1) := span_digits s in
  let '(fp, r2) :=
    match r1 with
    | c :: r => if (code c =? 46)%N then span_digits r else ([], r1)
    | [] => ([], [])
    end in
  match ip ++ fp with
  | [] => None
  | _ :: _ =>
      let m := digits_value (ip ++ fp) in
      let shift := Z.of_nat (length fp) in
      match r2 with
      | [] => Some (m, - shift)
      | c :: r3 =>
          if (code (lower c) =? 101)%N then
            let '(eneg, r4) := split_sign r3 in
            match span_digits r4 with
            | ((_ :: _) as ed, []) =>
                Some (m, cond_Zopp eneg (digits_value ed) - shift)
            | _ => None
            end
          else None
      end
  end.

Definition parse_inf_or_nan (neg : bool) (s : str) : option Float.float :=
  let l := map lower s in
  if str_eqb l (lit "inf") || str_eqb l (lit "infinity")
  then Some (S754_infinity neg)
  else if str_eqb l (lit "nan") then Some S754_nan
  else None.

Definition float_of_str (s : str) : PyRes Float.float :=
  let t := trim s in
  if underscores_ok None t then
    let '(neg, body) := split_sign (remove_underscores t) in
    match parse_decimal body with
    | Some (m, e10) => Ok (Float.of_decimal neg m e10)
    | None =>
        match parse_inf_or_nan neg body with
        | Some f => Ok f
        | None => Err ValueError
        end
    end
  else Err ValueError.

End FloatParse.

(** ** Python values that flow through the bridge *)

Inductive PyVal : Type :=
| VNone
| VInt (z : Z)
| VFloat (f : Float.float)
| VTuple (items : list PyVal).

Definition is_None (v : PyVal) : bool :=
  match v with VNone => true | _ => false end.

(** [v * 10] *)
Definition py_mul_10 (v : PyVal) : PyRes PyVal :=
  match v with
  | VNone => Err TypeError
  | VInt z => Ok (VInt (z * 10))
  | VFloat f => Ok (VFloat (Float.mul f Float.ten))
  | VTuple l => Ok (VTuple (concat (repeat l 10)))
  end.

(** [int(v)] *)
Definition py_int (v : PyVal) : PyRes Z :=
  match v with
  | VInt z => Ok z
  | VFloat f => Float.to_int f
  | VNone | VTuple _ => Err TypeError
  end.

(** Whether [f"{v:.1f}"] / [f"{v:.2f}"] formats: a float does; an [int] is
    converted to a float first, which raises [OverflowError] when it is too
    large; [None] and tuples raise [TypeError] (unsupported format
    string). *)
Definition py_format_f (v : PyVal) : PyRes unit :=
  match v with
  | VInt z =>
      match Float.of_int z with
      | Ok _ => Ok tt
      | Err e => Err e
      end
  | VFloat _ => Ok tt
  | VNone | VTuple _ => Err TypeError
  end.

(** Insertion-ordered [dict]: [d[k] = v] keeps the place of an existing key
    and appends a new one. *)
Section Dict.
Context {K V : Type} (eqb : K -> K -> bool).

Fixpoint dict_set (d : list (K * V)) (k : K) (v : V) : list (K * V) :=
  match d with
  | [] => [(k, v)]
  | (k', v') :: r =>
      if eqb k' k then (k', v) :: r else (k', v') :: dict_set r k v
  end.

Fixpoint dict_get (d : list (K * V)) (k : K) : PyRes V :=
  match d with
  | [] => Err KeyError
  | (k', v') :: r => if eqb k' k then Ok v' else dict_get r k
  end.
End Dict.

(** ** Decoded JSON bodies *)

Inductive JSON : Type :=
| JNull
| JBool (b : bool)
| JInt (z : Z)
| JFloat (f : Float.float)
| JStr (s : str)
| JArr (items : list JSON)
| JObj (fields : list (str * JSON)).

(** [v[key]] for a string key *)
Definition json_getitem_str (v : JSON) (key : str) : PyRes JSON :=
  match v with
  | JObj fields => dict_get str_eqb fields key
  | _ => Err TypeError
  end.

(** [v[0]] *)
Definition json_getitem_0 (v : JSON) : PyRes JSON :=
  match v with
  | JArr [] => Err IndexError
  | JArr (x :: _) => Ok x
  | JStr [] => Err IndexError
  | JStr (c :: _) => Ok (JStr [c])
  | JObj _ => Err KeyError
  | JNull | JBool _ | JInt _ | JFloat _ => Err TypeError
  end.

(** [float(v)] *)
Definition json_float (v : JSON) : PyRes Float.float :=
  match v with
  | JStr s => FloatParse.float_of_str s
  | JInt z => Float.of_int z
  | JFloat f => Ok f
  | JBool b => Ok (if b then Float.of_Z 1 else S754_zero false)
  | JNull | JArr _ | JObj _ => Err TypeError
  end.

(** ** Interpreter state, external collaborators, effects *)

Record SerialConfig : Type := {
  port : str;
  baudrate : Z;
  parity : ascii;
  stopbits : Z;
  bytesize : Z;
  timeout : Z;
  slave_address : Z
}.

(** A [minimalmodbus.Instrument] as the writer configures it. *)
Record Instrument : Type := {
  inst_port : str;
  inst_slave_address : Z;
  inst_close_port_after_each_call : bool;
  inst_serial : option (Z * ascii * Z * Z * Z)
    (* baudrate, parity, stopbits, bytesize, timeout once assigned *)
}.

Record Response : Type := {
  status_code : Z;
  json_body : PyRes JSON       (* what [response.json()] returns or raises *)
}.

Inductive Msg : Type :=
| MsgModbusConnected (p : str)
| MsgModbusConnectError (e : PyExc)
| MsgRegisterWritten (addr : Z) (t : PyVal)
| MsgModbusWriteError (e : PyExc)
| MsgWeatherReceived (t : Float.float)
| MsgWeatherFetchError (e : PyExc)
| MsgWeatherParseError (e : PyExc)
| MsgBanner
| MsgNoSensors
| MsgSensorCount (n : nat)
| MsgSensorRegister (i : Z) (sensor_id : str) (reg : option Z)
| MsgTime
| MsgSensorWritten (i : Z) (sensor_id : str) (t : PyVal) (reg : Z) (ok : bool)
| MsgSensorNoRegister (i : Z) (sensor_id : str) (t : PyVal)
| MsgWeatherWritten (t : PyVal) (reg : Z) (ok : bool)
| MsgWeatherFailed
| MsgStoppedByUser
| MsgErrorOccurred (e : PyExc)
| MsgCriticalError (e : PyExc).

Inductive Event : Type :=
| EOsSystem (cmd : str)
| EGlob (pattern : str)
| EOpen (path : str)
| ESleep (ms : Z)
| EInstrument (p : str) (slave : Z)
| ESerialSetup
| EWriteRegister (addr value functioncode : Z)
| EGet (url : str) (timeout_s : Z)
| ELogInfo (m : Msg)
| ELogError (m : Msg)
| EPrint (m : Msg).

(** What the outside world answers; the [nat] is the number of earlier
    calls of the same kind. *)
Record Env : Type := {
  glob_glob : nat -> str -> list str;
  open_readlines : nat -> str -> PyRes (list str);
  Instrument_new : nat -> option PyExc;
  serial_configure : nat -> option PyExc;
  Instrument_write_register : nat -> Z -> Z -> Z -> option PyExc;
  requests_get : nat -> str -> PyRes Response;
  sleep_interrupted : nat -> bool
}.

Record State : Type := {
  instrument : option Instrument;   (* [modbus_writer.instrument] *)
  n_glob : nat;
  n_open : nat;
  n_connect : nat;
  n_write : nat;
  n_get : nat;
  n_sleep : nat;
  trace : list Event                (* most recent first *)
}.

Definition initial_state : State :=
  {| instrument := None; n_glob := 0; n_open := 0; n_connect := 0;
     n_write := 0; n_get := 0; n_sleep := 0; trace := [] |}.

Definition emit (e : Event) (s : State) : State :=
  {| instrument := instrument s; n_glob := n_glob s; n_open := n_open s;
     n_connect := n_connect s; n_write := n_write s; n_get := n_get s;
     n_sleep := n_sleep s; trace := e :: trace s |}.

Definition with_instrument (i : option Instrument) (s : State) : State :=
  {| instrument := i; n_glob := n_glob s; n_open := n_open s;
     n_connect := n_connect s; n_write := n_write s; n_get := n_get s;
     n_sleep := n_sleep s; trace := trace s |}.

Definition bump_glob (s : State) : State :=
  {| instrument := instrument s; n_glob := S (n_glob s); n_open := n_open s;
     n_connect := n_connect s; n_write := n_write s; n_get := n_get s;
     n_sleep := n_sleep s; trace := trace s |}.

Definition bump_open (s : State) : State :=
  {| instrument := instrument s; n_glob := n_glob s; n_open := S (n_open s);
     n_connect := n_connect s; n_write := n_write s; n_get := n_get s;
     n_sleep := n_sleep s; trace := trace s |}.

Definition bump_connect (s : State) : State :=
  {| instrument := instrument s; n_glob := n_glob s; n_open := n_open s;
     n_connect := S (n_connect s); n_write := n_write s; n_get := n_get s;
     n_sleep := n_sleep s; trace := trace s |}.

Definition bump_write (s : State) : State :=
  {| instrument := instrument s; n_glob := n_glob s; n_open := n_open s;
     n_connect := n_connect s; n_write := S (n_write s); n_get := n_get s;
     n_sleep := n_sleep s; trace := trace s |}.

Definition bump_get (s : State) : State :=
  {| instrument := instrument s; n_glob := n_glob s; n_open := n_open s;
     n_connect := n_connect s; n_write := n_write s; n_get := S (n_get s);
     n_sleep := n_sleep s; trace := trace s |}.

Definition bump_sleep (s : State) : State :=
  {| instrument := instrument s; n_glob := n_glob s; n_open := n_open s;
     n_connect := n_connect s; n_write := n_write s; n_get := n_get s;
     n_sleep := S (n_sleep s); trace := trace s |}.

(** Events in the order they happened. *)
Definition events (s : State) : list Event := rev (trace s).

(** How a statement ends: with a value, with an exception on its way up, or
    with the loop budget of the model used up (the code is still running). *)
Inductive Outcome (A : Type) : Type :=
| Returned (a : A)
| Raised (e : PyExc)
| OutOfFuel.
Arguments Returned {A} a.
Arguments Raised {A} e.
Arguments OutOfFuel {A}.

Definition M (A : Type) : Type := State -> Outcome A * State.

Definition ret {A} (a : A) : M A := fun s => (Returned a, s).

Definition bind {A B} (m : M A) (k : A -> M B) : M B :=
  fun s =>
    match m s with
    | (Returned a, s') => k a s'
    | (Raised e, s') => (Raised e, s')
    | (OutOfFuel, s') => (OutOfFuel, s')
    end.

Definition raise {A} (e : PyExc) : M A := fun s => (Raised e, s).

Definition out_of_fuel {A} : M A := fun s => (OutOfFuel, s).

(** [try: body / except <catches> as e: handler e] *)
Definition try_except {A} (body : M A) (catches : PyExc -> bool)
    (handler : PyExc -> M A) : M A :=
  fun s =>
    match body s with
    | (Raised e, s') => if catches e then handler e s' else (Raised e, s')
    | r => r
    end.

Definition lift {A} (r : PyRes A) : M A :=
  match r with
  | Ok a => ret a
  | Err e => raise e
  end.

Definition modify (f : State -> State) : M unit := fun s => (Returned tt, f s).

Definition gets {A} (f : State -> A) : M A := fun s => (Returned (f s), s).

Declare Scope py_scope.
Delimit Scope py_scope with py.
Notation "x <- m ;; k" := (bind m (fun x => k))
  (at level 61, m at next level, right associativity) : py_scope.
Notation "m ;; k" := (bind m (fun _ => k))
  (at level 61, right associativity) : py_scope.
Local Open Scope py_scope.

Definition log_info (m : Msg) : M unit := modify (emit (ELogInfo m)).
Definition log_error (m : Msg) : M unit := modify (emit (ELogError m)).
Definition print (m : Msg) : M unit := modify (emit (EPrint m)).

Fixpoint for_each {A} (i : Z) (l : list A) (body : Z -> A -> M unit) : M unit :=
  match l with
  | [] => ret tt
  | x :: r => body i x ;; for_each (i + 1) r body
  end.

(** ** The program *)

Section Program.

Variable env : Env.

(** [time.sleep(ms / 1000)]; Ctrl+C during the wait raises
    [KeyboardInterrupt]. *)
Definition time_sleep (ms : Z) : M unit :=
  k <- gets n_sleep ;;
  modify (fun s => emit (ESleep ms) (bump_sleep s)) ;;
  if sleep_interrupted env k then raise KeyboardInterrupt else ret tt.

(** *** class DS18B20 (ds18b20_modbus.py, lines 11-77) *)

Definition base_dir : str := lit "/sys/bus/w1/devices/".

Definition DS18B20_init : M unit :=
  modify (emit (EOsSystem (lit "modprobe w1-gpio"))) ;;
  modify (emit (EOsSystem (lit "modprobe w1-therm"))).

Definition find_sensors : M (list str) :=
  k <- gets n_glob ;;
  let pattern := (base_dir ++ lit "28*")%list in
  modify (fun s => emit (EGlob pattern) (bump_glob s)) ;;
  ret (map last_component (glob_glob env k pattern)).

(** [self.base_dir + sensor_id + '/w1_slave'] *)
Definition device_file (sensor_id : str) : str :=
  (base_dir ++ sensor_id ++ lit "/w1_slave")%list.

(** The bare [except:] turns every failure into [None]. *)
Definition read_temp_raw (sensor_id : str) : M (option (list str)) :=
  k <- gets n_open ;;
  modify (fun s => emit (EOpen (device_file sensor_id)) (bump_open s)) ;;
  match open_readlines env k (device_file sensor_id) with
  | Ok lines => ret (Some lines)
  | Err _ => ret None
  end.

(** [lines[i]] *)
Definition list_getitem {A} (l : list A) (i : nat) : PyRes A :=
  match nth_error l i with
  | Some x => Ok x
  | None => Err IndexError
  end.

(** [lines[0].strip()[-3:] != 'YES'] *)
Definition crc_missing (line0 : str) : bool :=
  negb (str_eqb (last_chars 3 (strip line0)) (lit "YES")).

(** What every failure path of [read_temp] returns: [None, None]. *)
Definition none_pair : PyVal := VTuple [VNone; VNone].

(** The [while] loop of [read_temp]: [inl lines] when the loop is left
    with validated lines, [inr v] when the function returns [v] from
    inside the loop. One unit of fuel per iteration. *)
Fixpoint crc_loop (fuel : nat) (sensor_id : str) (lines : list str)
  : M (list str + PyVal) :=
  line0 <- lift (list_getitem lines 0) ;;
  if crc_missing line0 then
    match fuel with
    | O => out_of_fuel
    | S fuel' =>
        time_sleep 200 ;;
        r <- read_temp_raw sensor_id ;;
        match r with
        | None => ret (inr none_pair)
        | Some lines' => crc_loop fuel' sensor_id lines'
        end
    end
  else ret (inl lines).

(** Lines 56-65: what follows the loop. *)
Definition parse_temperature (lines : list str) : PyRes PyVal :=
  match list_getitem lines 1 with
  | Err e => Err e
  | Ok line1 =>
      let equals_pos := find (lit "t=") line1 in
      if equals_pos =? -1 then Ok none_pair
      else
        let temp_string := slice_from (equals_pos + 2) line1 in
        match FloatParse.float_of_str temp_string with
        | Err e => Err e
        | Ok f => Ok (VFloat (Float.div f Float.thousand))
        end
  end.

Definition read_temp (fuel : nat) (sensor_id : str) : M PyVal :=
  r <- read_temp_raw sensor_id ;;
  match r with
  | None => ret none_pair
  | Some lines =>
      if (length lines <? 2)%nat then ret none_pair
      else
        v <- crc_loop fuel sensor_id lines ;;
        match v with
        | inr early => ret early
        | inl lines' => lift (parse_temperature lines')
        end
  end.

Definition results_dict : Type := list (str * PyVal).

Fixpoint collect_temperatures (fuel : nat) (sensors : list str)
    (results : results_dict) : M results_dict :=
  match sensors with
  | [] => ret results
  | sensor_id :: rest =>
      temp_c <- read_temp fuel sensor_id ;;
      collect_temperatures fuel rest
        (if is_None temp_c then results
         else dict_set str_eqb results sensor_id temp_c)
  end.

Definition get_all_temperatures (fuel : nat) : M results_dict :=
  sensors <- find_sensors ;;
  collect_temperatures fuel sensors [].

(** *** class ModbusRTUWriter (ds18b20_modbus.py, lines 79-134; the
    class of weather_modbus.py, lines 38-93, is the same text) *)

Variable cfg : SerialConfig.

Definition connect : M unit :=
  try_except
    (k <- gets n_connect ;;
     modify (fun s => emit (EInstrument (port cfg) (slave_address cfg))
                        (bump_connect s)) ;;
     match Instrument_new env k with
     | Some e => raise e
     | None =>
         modify (with_instrument
                   (Some {| inst_port := port cfg;
                            inst_slave_address := slave_address cfg;
                            inst_close_port_after_each_call := true;
                            inst_serial := None |})) ;;
         modify (emit ESerialSetup) ;;
         match serial_configure env k with
         | Some e => raise e
         | None =>
             modify (with_instrument
                       (Some {| inst_port := port cfg;
                                inst_slave_address := slave_address cfg;
                                inst_close_port_after_each_call := true;
                                inst_serial :=
                                  Some (baudrate cfg, parity cfg, stopbits cfg,
                                        bytesize cfg, timeout cfg) |})) ;;
             log_info (MsgModbusConnected (port cfg))
         end
     end)
    is_Exception
    (fun e =>
       log_error (MsgModbusConnectError e) ;;
       modify (with_instrument None)).

Definition ModbusRTUWriter_init : M unit :=
  modify (with_instrument None) ;;
  connect.

(** [self.instrument.write_register(addr, value, functioncode=fc)] *)
Definition call_write_register (addr value fc : Z) : M unit :=
  k <- gets n_write ;;
  modify (fun s => emit (EWriteRegister addr value fc) (bump_write s)) ;;
  match Instrument_write_register env k addr value fc with
  | Some e => raise e
  | None => ret tt
  end.

Definition write_temperature (register_address : Z) (temperature : PyVal)
  : M bool :=
  i0 <- gets instrument ;;
  ready <- match i0 with
           | Some _ => ret true
           | None =>
               connect ;;
               i1 <- gets instrument ;;
               ret (match i1 with Some _ => true | None => false end)
           end ;;
  if negb ready then ret false
  else
    try_except
      (scaled <- lift (py_mul_10 temperature) ;;
       temp_value <- lift (py_int scaled) ;;
       call_write_register register_address temp_value 6 ;;
       lift (py_format_f temperature) ;;
       log_info (MsgRegisterWritten register_address temperature) ;;
       ret true)
      is_Exception
      (fun e =>
         log_error (MsgModbusWriteError e) ;;
         modify (with_instrument None) ;;
         ret false).

End Program.

(** [try: body / except <c1>: h1 / except <c2>: h2]: the first clause that
    matches handles the exception; a handler is not covered by its sibling. *)
Definition try_except2 {A} (body : M A)
    (c1 : PyExc -> bool) (h1 : PyExc -> M A)
    (c2 : PyExc -> bool) (h2 : PyExc -> M A) : M A :=
  fun s =>
    match body s with
    | (Raised e, s') =>
        if c1 e then h1 e s'
        else if c2 e then h2 e s'
        else (Raised e, s')
    | r => r
    end.

(** [while True: body], [ticks] iterations of budget. It never returns. *)
Fixpoint while_true {A} (ticks : nat) (body : M unit) : M A :=
  match ticks with
  | O => out_of_fuel
  | S n => body ;; while_true n body
  end.

(** How [main] comes to its end (it returns [None] in each case). *)
Inductive Exit : Type :=
| ExitNoSensors
| ExitStoppedByUser
| ExitCriticalError (e : PyExc).

Definition modbus_config : SerialConfig :=
  {| port := lit "/dev/ttyUSB0"; baudrate := 9600; parity := "E"%char;
     stopbits := 1; bytesize := 8; timeout := 2; slave_address := 1 |}.

(** *** ds18b20_modbus.py, [main] (lines 136-211)

    [main] is embedded from line 147 on, that is once its first statement,
    [logging.basicConfig] (lines 138-145, before any [try]), has returned:
    when the log file cannot be opened that call raises [OSError] and
    nothing of what follows is reached. *)
Module ds18b20_modbus.

Definition sensor_registers : list (Z * Z) := [(0, 4096); (1, 4097)].

(** Lines 187-204: the body of the [while True]. *)
Definition cycle (env : Env) (cfg : SerialConfig) (registers : list (Z * Z))
    (fuel : nat) : M unit :=
  temperatures <- get_all_temperatures env fuel ;;
  print MsgTime ;;
  for_each 0 temperatures
    (fun i item =>
       let '(sensor_id, temp_c) := item in
       if i <? Z.of_nat (length registers) then
         register <- lift (dict_get Z.eqb registers i) ;;
         success <- write_temperature env cfg register temp_c ;;
         lift (py_format_f temp_c) ;;
         print (MsgSensorWritten i sensor_id temp_c register success)
       else
         lift (py_format_f temp_c) ;;
         print (MsgSensorNoRegister i sensor_id temp_c)) ;;
  time_sleep env 5000.

Definition main (env : Env) (ticks fuel : nat) : M Exit :=
  DS18B20_init ;;
  ModbusRTUWriter_init env modbus_config ;;
  print MsgBanner ;;
  sensors <- find_sensors env ;;
  match sensors with
  | [] => print MsgNoSensors ;; ret ExitNoSensors
  | _ :: _ =>
      print (MsgSensorCount (length sensors)) ;;
      for_each 0 sensors
        (fun i sensor_id =>
           print (MsgSensorRegister i sensor_id
                    (match dict_get Z.eqb sensor_registers i with
                     | Ok r => Some r
                     | Err _ => None
                     end))) ;;
      print MsgBanner ;;
      try_except2
        (while_true ticks (cycle env modbus_config sensor_registers fuel))
        is_KeyboardInterrupt
        (fun _ =>
           print MsgStoppedByUser ;;
           log_info MsgStoppedByUser ;;
           ret ExitStoppedByUser)
        is_Exception
        (fun e =>
           print (MsgErrorOccurred e) ;;
           log_error (MsgCriticalError e) ;;
           ret (ExitCriticalError e))
  end.

End ds18b20_modbus.

(** *** weather_modbus.py: [WeatherFetcher] (lines 11-36) and [main]
    (lines 95-154), embedded from line 106 on: as above, once
    [logging.basicConfig] (lines 97-104) has returned *)
Module weather_modbus.

Definition base_url : str := lit "https://wttr.in".

Definition WEATHER_REGISTER : Z := 4096.

(** [response.raise_for_status()] *)
Definition raise_for_status (r : Response) : M unit :=
  if (400 <=? status_code r) && (status_code r <? 600)
  then raise RequestsHTTPError else ret tt.

(** [response.json()]: the decoded body, or what the decoder raises
    ([JSONDecodeError] of [requests] for a body that is not JSON). *)
Definition response_json (r : Response) : M JSON :=
  lift (json_body r).

Definition get_current_temperature (env : Env) (city : str) : M PyVal :=
  try_except2
    (k <- gets n_get ;;
     let url := (base_url ++ lit "/" ++ city ++ lit "?format=j1")%list in
     modify (fun s => emit (EGet url 10) (bump_get s)) ;;
     response <- lift (requests_get env k url) ;;
     raise_for_status response ;;
     data <- response_json response ;;
     cc <- lift (json_getitem_str data (lit "current_condition")) ;;
     first <- lift (json_getitem_0 cc) ;;
     temp_C <- lift (json_getitem_str first (lit "temp_C")) ;;
     temperature <- lift (json_float temp_C) ;;
     log_info (MsgWeatherReceived temperature) ;;
     ret (VFloat temperature))
    is_RequestException
    (fun e => log_error (MsgWeatherFetchError e) ;; ret VNone)
    is_parse_error
    (fun e => log_error (MsgWeatherParseError e) ;; ret VNone).

(** Lines 132-147: the body of the [while True]. *)
Definition cycle (env : Env) (cfg : SerialConfig) (city : str) : M unit :=
  temperature <- get_current_temperature env city ;;
  (if is_None temperature then print MsgWeatherFailed
   else
     success <- write_temperature env cfg WEATHER_REGISTER temperature ;;
     lift (py_format_f temperature) ;;
     print (MsgWeatherWritten temperature WEATHER_REGISTER success)) ;;
  time_sleep env 300000.

Definition main (env : Env) (ticks : nat) : M Exit :=
  ModbusRTUWriter_init env modbus_config ;;
  print MsgBanner ;;
  try_except2
    (while_true ticks (cycle env modbus_config (lit "Kurgan")))
    is_KeyboardInterrupt
    (fun _ =>
       print MsgStoppedByUser ;;
       log_info MsgStoppedByUser ;;
       ret ExitStoppedByUser)
    is_Exception
    (fun e =>
       print (MsgErrorOccurred e) ;;
       log_error (MsgCriticalError e) ;;
       ret (ExitCriticalError e)).

End weather_modbus.

(** ** Vocabulary of the properties *)

(** Events of a call that takes [s] to [s'], in the order they happened. *)
Definition emitted (s s' : State) : list Event :=
  rev (firstn (length (trace s') - length (trace s)) (trace s')).

Definition is_write_event (e : Event) : bool :=
  match e with EWriteRegister _ _ _ => true | _ => false end.

(** The serial library raises ordinary errors only; Ctrl+C is delivered
    during [time.sleep]. *)
Definition transport_errors_ordinary (env : Env) : Prop :=
  (forall k e, Instrument_new env k = Some e -> is_Exception e = true) /\
  (forall k e, serial_configure env k = Some e -> is_Exception e = true) /\
  (forall k a v fc e,
      Instrument_write_register env k a v fc = Some e -> is_Exception e = true).

(** [int(temperature * 10)] *)
Definition quantize (temperature : PyVal) : PyRes Z :=
  match py_mul_10 temperature with
  | Ok scaled => py_int scaled
  | Err e => Err e
  end.

(** The state [connect] leaves when the port opens and configures. *)
Definition connected_state (cfg : SerialConfig) (s : State) : State :=
  emit (ELogInfo (MsgModbusConnected (port cfg)))
    (with_instrument
       (Some {| inst_port := port cfg;
                inst_slave_address := slave_address cfg;
                inst_close_port_after_each_call := true;
                inst_serial := Some (baudrate cfg, parity cfg, stopbits cfg,
                                     bytesize cfg, timeout cfg) |})
       (emit ESerialSetup
          (emit (EInstrument (port cfg) (slave_address cfg)) (bump_connect s)))).

(** [write_temperature] from a state that holds a session, case by case. *)
Definition write_connected (env : Env) (addr : Z) (temperature : PyVal)
    (s : State) : Outcome bool * State :=
  match quantize temperature with
  | Err e =>
      (Returned false,
       with_instrument None (emit (ELogError (MsgModbusWriteError e)) s))
  | Ok v =>
      let s1 := emit (EWriteRegister addr v 6) (bump_write s) in
      match Instrument_write_register env (n_write s) addr v 6 with
      | None =>
          match py_format_f temperature with
          | Ok _ =>
              (Returned true,
               emit (ELogInfo (MsgRegisterWritten addr temperature)) s1)
          | Err e =>
              (Returned false,
               with_instrument None (emit (ELogError (MsgModbusWriteError e)) s1))
          end
      | Some e =>
          if is_Exception e
          then (Returned false,
                with_instrument None (emit (ELogError (MsgModbusWriteError e)) s1))
          else (Raised e, s1)
      end
  end.

(** A session is there, or the next connection attempt succeeds. *)
Definition session_available (env : Env) (s : State) : Prop :=
  instrument s <> None
  \/ (Instrument_new env (n_connect s) = None
      /\ serial_configure env (n_connect s) = None).

(** What one [write_temperature] call that returns [b] did. *)
Record call_summary (env : Env) (cfg : SerialConfig) (addr : Z)
    (temperature : PyVal) (s : State) (b : bool) (s1 : State) : Prop := {
  cs_connects :
    (instrument s <> None /\ n_connect s1 = n_connect s)
    \/ (instrument s = None /\ n_connect s1 = S (n_connect s)
        /\ hd_error (emitted s s1)
           = Some (EInstrument (port cfg) (slave_address cfg)));
  cs_state :
    (b = false /\ instrument s1 = None) \/ (b = true /\ instrument s1 <> None);
  cs_writes :
    (b = false /\ n_write s1 = n_write s
     /\ filter is_write_event (emitted s s1) = []
     /\ ((exists e, quantize temperature = Err e)
         \/ (instrument s = None
             /\ (Instrument_new env (n_connect s) <> None
                 \/ serial_configure env (n_connect s) <> None))))
    \/ (exists v,
           quantize temperature = Ok v
           /\ n_write s1 = S (n_write s)
           /\ filter is_write_event (emitted s s1) = [EWriteRegister addr v 6]
           /\ (b = true <->
               Instrument_write_register env (n_write s) addr v 6 = None
               /\ py_format_f temperature = Ok tt));
  cs_session :
    instrument s <> None
    \/ (Instrument_new env (n_connect s) = None
        /\ serial_configure env (n_connect s) = None)
    \/ (b = false /\ instrument s1 = None /\ n_write s1 = n_write s)
}.

Definition all_space (s : str) : Prop := Forall (fun c => isspace c = true) s.
Definition float_space (s : str) : Prop :=
  Forall (fun c => float_isspace c = true) s.
Definition all_digits (s : str) : Prop := Forall (fun c => isdigit c = true) s.

(** The optional sign of an integer literal. *)
Inductive sign_prefix : str -> bool -> Prop :=
| sign_none : sign_prefix [] false
| sign_plus : sign_prefix (lit "+") false
| sign_minus : sign_prefix (lit "-") true.

(** The payload has a first line and that line fails the CRC check. *)
Definition no_marker (lines : list str) : bool :=
  match lines with
  | line0 :: _ => crc_missing line0
  | [] => false
  end.

(** State changes of the first read and of one [sleep]-and-read round. *)
Definition first_read (path : str) (s : State) : State :=
  emit (EOpen path) (bump_open s).

Definition retry_step (path : str) (s : State) : State :=
  emit (EOpen path) (bump_open (emit (ESleep 200) (bump_sleep s))).

Fixpoint after_retries (n : nat) (path : str) (s : State) : State :=
  match n with
  | O => s
  | S k => after_retries k path (retry_step path s)
  end.

(** ** Fixtures *)

Definition nl : str := [ascii_of_nat 10].

(** A [w1_slave] file as the kernel driver prints it. *)
Definition w1_payload (crc : string) (millidegrees : string) : list str :=
  [(lit "72 01 4b 46 7f ff 0e 10 57 : crc=57 " ++ lit crc ++ nl)%list;
   (lit "72 01 4b 46 7f ff 0e 10 57 " ++ lit "t=" ++ lit millidegrees ++ nl)%list].

Definition probe_a : str := lit "28-0000000000aa".
Definition probe_b : str := lit "28-0000000000bb".

(** Every open, connect and write succeeds; no probe is wired. *)
Definition accepting_env : Env :=
  {| glob_glob := fun _ _ => [];
     open_readlines := fun _ _ => Err OSError;
     Instrument_new := fun _ => None;
     serial_configure := fun _ => None;
     Instrument_write_register := fun _ _ _ _ => None;
     requests_get := fun _ _ => Err RequestsConnectionError;
     sleep_interrupted := fun _ => false |}.

(** The slave never answers. *)
Definition silent_slave_env : Env :=
  {| glob_glob := fun _ _ => [];
     open_readlines := fun _ _ => Err OSError;
     Instrument_new := fun _ => None;
     serial_configure := fun _ => None;
     Instrument_write_register := fun _ _ _ _ => Some ModbusException;
     requests_get := fun _ _ => Err RequestsConnectionError;
     sleep_interrupted := fun _ => false |}.

(** The serial port does not exist. *)
Definition no_port_env : Env :=
  {| glob_glob := fun _ _ => [];
     open_readlines := fun _ _ => Err OSError;
     Instrument_new := fun _ => Some OSError;
     serial_configure := fun _ => None;
     Instrument_write_register := fun _ _ _ _ => None;
     requests_get := fun _ _ => Err RequestsConnectionError;
     sleep_interrupted := fun _ => false |}.

(** Two probes: 21.562 and -5.0 degrees. *)
Definition two_probes_env : Env :=
  {| glob_glob := fun _ _ => [(base_dir ++ probe_a)%list; (base_dir ++ probe_b)%list];
     open_readlines := fun _ p =>
       if str_eqb p (device_file probe_a) then Ok (w1_payload "YES" "21562")
       else if str_eqb p (device_file probe_b) then Ok (w1_payload "YES" "-5000")
       else Err OSError;
     Instrument_new := fun _ => None;
     serial_configure := fun _ => None;
     Instrument_write_register := fun _ _ _ _ => None;
     requests_get := fun _ _ => Err RequestsConnectionError;
     sleep_interrupted := fun _ => false |}.

(** Two probes listed; the file of the first cannot be read. *)
Definition dead_probe_env : Env :=
  {| glob_glob := fun _ _ => [(base_dir ++ probe_a)%list; (base_dir ++ probe_b)%list];
     open_readlines := fun _ p =>
       if str_eqb p (device_file probe_b) then Ok (w1_payload "YES" "-5000")
       else Err OSError;
     Instrument_new := fun _ => None;
     serial_configure := fun _ => None;
     Instrument_write_register := fun _ _ _ _ => None;
     requests_get := fun _ _ => Err RequestsConnectionError;
     sleep_interrupted := fun _ => false |}.

(** One probe that answers twice with a bad CRC and then disappears. *)
Definition flaky_probe_env : Env :=
  {| glob_glob := fun _ _ => [(base_dir ++ probe_a)%list];
     open_readlines := fun k _ =>
       if (k <? 2)%nat then Ok (w1_payload "NO" "85000") else Err OSError;
     Instrument_new := fun _ => None;
     serial_configure := fun _ => None;
     Instrument_write_register := fun _ _ _ _ => None;
     requests_get := fun _ _ => Err RequestsConnectionError;
     sleep_interrupted := fun _ => false |}.

(** One probe that answers once with a bad CRC and then reads as an empty
    file. *)
Definition emptied_probe_env : Env :=
  {| glob_glob := fun _ _ => [(base_dir ++ probe_a)%list];
     open_readlines := fun k _ =>
       if (k <? 1)%nat then Ok (w1_payload "NO" "85000") else Ok [];
     Instrument_new := fun _ => None;
     serial_configure := fun _ => None;
     Instrument_write_register := fun _ _ _ _ => None;
     requests_get := fun _ _ => Err RequestsConnectionError;
     sleep_interrupted := fun _ => false |}.

(** wttr.in answers 200 with the body [{"current_condition": []}]. *)
Definition empty_condition_env : Env :=
  {| glob_glob := fun _ _ => [];
     open_readlines := fun _ _ => Err OSError;
     Instrument_new := fun _ => None;
     serial_configure := fun _ => None;
     Instrument_write_register := fun _ _ _ _ => None;
     requests_get := fun _ _ =>
       Ok {| status_code := 200;
             json_body := Ok (JObj [(lit "current_condition", JArr [])]) |};
     sleep_interrupted := fun _ => false |}.

(** The nearest doubles of 21.562, -5.0 and 4000.0. *)
Definition f_21_562 : Float.float := Eval vm_compute in Float.of_decimal false 21562 (-3).
Definition f_minus_5 : Float.float := Eval vm_compute in Float.of_Z (-5).
Definition f_4000 : Float.float := Eval vm_compute in Float.of_Z 4000.

(** ** Vocabulary of the further properties *)

(** The path has no slash. *)
Definition slash_free (s : str) : Prop :=
  Forall (fun c => (code c =? 47)%N = false) s.

(** The instrument [connect] builds from the configuration. *)
Definition configured_instrument (cfg : SerialConfig) : Instrument :=
  {| inst_port := port cfg;
     inst_slave_address := slave_address cfg;
     inst_close_port_after_each_call := true;
     inst_serial := Some (baudrate cfg, parity cfg, stopbits cfg,
                          bytesize cfg, timeout cfg) |}.

(** No session, or one that carries every serial parameter. *)
Definition session_well_formed (cfg : SerialConfig) (s : State) : Prop :=
  instrument s = None \/ instrument s = Some (configured_instrument cfg).

(** The Modbus side of the state is the same in [s] and [s']. *)
Definition same_writer (s s' : State) : Prop :=
  instrument s' = instrument s
  /\ n_write s' = n_write s
  /\ n_connect s' = n_connect s.

(** [p] holds of [lo], [lo + 1], ..., [n] integers in all. *)
Fixpoint all_from (p : Z -> bool) (lo : Z) (n : nat) : bool :=
  match n with
  | O => true
  | S k => p lo && all_from p (lo + 1) k
  end.

(** The register value of a probe reading of [m] millidegrees is
    [m] divided by 100, toward zero. *)
Definition millidegrees_ok (m : Z) : bool :=
  match quantize (VFloat (Float.div (Float.of_Z_signed (m <? 0) m)
                            Float.thousand)) with
  | Ok v => v =? Z.quot m 100
  | Err _ => false
  end.

(** The same for the reading of [r] sixteenths of a degree, which the
    1-Wire driver prints as [r * 1000 / 16] millidegrees. *)
Definition sixteenths_ok (r : Z) : bool :=
  millidegrees_ok (Z.quot (r * 1000) 16).

(** The register value of [n] whole degrees is [10 * n]. *)
Definition whole_degrees_ok (n : Z) : bool :=
  match quantize (VFloat (Float.of_Z n)) with
  | Ok v => v =? 10 * n
  | Err _ => false
  end.

(** The URL [get_current_temperature] requests. *)
Definition weather_url (city : str) : str :=
  (weather_modbus.base_url ++ lit "/" ++ city ++ lit "?format=j1")%list.

(** The request does not deliver a decodable 2xx/3xx answer. *)
Definition fetch_fails (r : PyRes Response) : Prop :=
  match r with
  | Err e => is_RequestException e = true
  | Ok resp =>
      (400 <=? status_code resp) && (status_code resp <? 600) = true
      \/ json_body resp = Err RequestsJSONDecodeError
  end.

(** One probe whose file always reads [lines]; the transport accepts. *)
Definition one_probe_env (lines : list str) : Env :=
  {| glob_glob := fun _ _ => [(base_dir ++ probe_a)%list];
     open_readlines := fun _ _ => Ok lines;
     Instrument_new := fun _ => None;
     serial_configure := fun _ => None;
     Instrument_write_register := fun _ _ _ _ => None;
     requests_get := fun _ _ => Err RequestsConnectionError;
     sleep_interrupted := fun _ => false |}.

(** A valid first line as the driver prints it. *)
Definition crc_line : str := (lit "72 01 4b 46 7f ff 0e 10 57 : crc=57 " ++ lit "YES" ++ nl)%list.

(** wttr.in answers 200 with [{"current_condition": [{"temp_C": "13"}]}]. *)
Definition thirteen_degrees_env : Env :=
  {| glob_glob := fun _ _ => [];
     open_readlines := fun _ _ => Err OSError;
     Instrument_new := fun _ => None;
     serial_configure := fun _ => None;
     Instrument_write_register := fun _ _ _ _ => None;
     requests_get := fun _ _ =>
       Ok {| status_code := 200;
             json_body :=
               Ok (JObj [(lit "current_condition",
                          JArr [JObj [(lit "temp_C", JStr (lit "13"))]])]) |};
     sleep_interrupted := fun _ => false |}.

(** Lines 195-202: what the loop of the sensor bridge does with one entry of
    the mapping (the body of its [for]). *)
Definition cycle_item (env : Env) (cfg : SerialConfig) (registers : list (Z * Z))
    (i : Z) (item : str * PyVal) : M unit :=
  let '(sensor_id, temp_c) := item in
  if i <? Z.of_nat (length registers) then
    register <- lift (dict_get Z.eqb registers i) ;;
    success <- write_temperature env cfg register temp_c ;;
    lift (py_format_f temp_c) ;;
    print (MsgSensorWritten i sensor_id temp_c register success)
  else
    lift (py_format_f temp_c) ;;
    print (MsgSensorNoRegister i sensor_id temp_c).

(** Discharges [transport_errors_ordinary] for a concrete environment. *)
Ltac solve_ordinary :=
  repeat split; intros; cbn in *; try discriminate;
  match goal with
  | H : Some _ = Some _ |- _ => inversion H; reflexivity
  end.

(** * Properties *)

(** ** Helper lemmas *)

Lemma emitted_app (s s' : State) (new : list Event) :
  trace s' = (new ++ trace s)%list -> emitted s s' = rev new.
Proof.
  intros H. unfold emitted. rewrite H, length_app.
  replace (length new + length (trace s) - length (trace s))%nat
    with (length new) by lia.
  now rewrite firstn_app, Nat.sub_diag, firstn_all, firstn_O, app_nil_r.
Qed.

Lemma quantize_error_ordinary temperature e :
  quantize temperature = Err e -> is_Exception e = true.
Proof.
  unfold quantize. destruct temperature as [ | z | f | l]; cbn; intros H;
    try (inversion H; reflexivity).
  unfold Float.to_int in H.
  destruct (Float.mul f Float.ten); cbn in H; inversion H; reflexivity.
Qed.

Lemma format_error_ordinary temperature e :
  py_format_f temperature = Err e -> is_Exception e = true.
Proof.
  destruct temperature as [ | z | f | l]; cbn; intros H;
    try (inversion H; reflexivity).
  unfold Float.of_int in H.
  destruct (Float.of_Z z); inversion H; reflexivity.
Qed.

Lemma quantize_float t :
  quantize (VFloat t) = Float.to_int (Float.mul t Float.ten).
Proof. reflexivity. Qed.

Lemma to_int_trunc f v : Float.to_int f = Ok v <-> Float.trunc f = Some v.
Proof.
  destruct f; cbn; split; intros H; inversion H; reflexivity.
Qed.

Lemma connect_ok env cfg s :
  Instrument_new env (n_connect s) = None ->
  serial_configure env (n_connect s) = None ->
  connect env cfg s = (Returned tt, connected_state cfg s).
Proof.
  intros Hn Hc. unfold connect, try_except, bind, gets, modify, log_info, raise.
  cbn. rewrite Hn. cbn. rewrite Hc. reflexivity.
Qed.

Lemma connect_fail env cfg s :
  transport_errors_ordinary env ->
  Instrument_new env (n_connect s) <> None \/
  serial_configure env (n_connect s) <> None ->
  exists e new,
    connect env cfg s = (Returned tt, with_instrument None
                           (emit (ELogError (MsgModbusConnectError e)) new))
    /\ n_connect new = S (n_connect s) /\ n_write new = n_write s
    /\ exists evs, trace new = (evs ++ EInstrument (port cfg) (slave_address cfg) :: trace s)%list
                   /\ forallb (fun e => negb (is_write_event e)) evs = true.
Proof.
  intros (Hn & Hc & _) H.
  unfold connect, try_except, bind, gets, modify, log_info, log_error, raise.
  cbn.
  destruct (Instrument_new env (n_connect s)) as [e|] eqn:En; cbn.
  - rewrite (Hn _ _ En). eexists e, _. split; [reflexivity|].
    cbn. repeat split. exists []. split; reflexivity.
  - destruct (serial_configure env (n_connect s)) as [e|] eqn:Ec; cbn.
    + rewrite (Hc _ _ Ec). eexists e, _. split; [reflexivity|].
      cbn. repeat split. exists [ESerialSetup]. split; reflexivity.
    + destruct H as [H|H]; now elim H.
Qed.

Lemma write_temperature_connected env cfg addr temperature s i :
  instrument s = Some i ->
  write_temperature env cfg addr temperature s
  = write_connected env addr temperature s.
Proof.
  intros Hi. unfold write_temperature, write_connected, call_write_register.
  unfold try_except, bind, gets, modify, ret, lift, log_info, log_error, raise.
  rewrite Hi. cbn.
  destruct (quantize temperature) as [v|e] eqn:Hq.
  - unfold quantize in Hq.
    destruct (py_mul_10 temperature) as [sc|e]; [|discriminate]. cbn.
    rewrite Hq. cbn.
    destruct (Instrument_write_register env (n_write s) addr v 6); cbn.
    + reflexivity.
    + destruct (py_format_f temperature) as [u|e] eqn:Hf; cbn.
      * reflexivity.
      * rewrite (format_error_ordinary _ _ Hf). reflexivity.
  - pose proof (quantize_error_ordinary _ _ Hq) as He. unfold quantize in Hq.
    destruct (py_mul_10 temperature) as [sc|e']; cbn.
    + rewrite Hq. cbn. rewrite He. reflexivity.
    + inversion Hq; subst. rewrite He. reflexivity.
Qed.

Lemma write_temperature_disconnected env cfg addr temperature s :
  instrument s = None ->
  write_temperature env cfg addr temperature s
  = match connect env cfg s with
    | (Returned _, s1) =>
        match instrument s1 with
        | Some _ => write_connected env addr temperature s1
        | None => (Returned false, s1)
        end
    | (Raised e, s1) => (Raised e, s1)
    | (OutOfFuel, s1) => (OutOfFuel, s1)
    end.
Proof.
  intros Hi.
  unfold write_temperature, bind, gets, ret. rewrite Hi.
  destruct (connect env cfg s) as [[u|e|] s1] eqn:Hc; try reflexivity.
  destruct (instrument s1) as [i|] eqn:Hi1; cbn; [|reflexivity].
  rewrite <- (write_temperature_connected env cfg addr temperature s1 i Hi1).
  unfold write_temperature, bind, gets, ret. rewrite Hi1. reflexivity.
Qed.

Lemma connect_outcome env cfg s :
  transport_errors_ordinary env ->
  exists s1 evs,
    connect env cfg s = (Returned tt, s1)
    /\ n_connect s1 = S (n_connect s) /\ n_write s1 = n_write s
    /\ trace s1 = (evs ++ EInstrument (port cfg) (slave_address cfg) :: trace s)%list
    /\ forallb (fun e => negb (is_write_event e)) evs = true
    /\ ((Instrument_new env (n_connect s) = None
         /\ serial_configure env (n_connect s) = None
         /\ instrument s1 <> None)
        \/ ((Instrument_new env (n_connect s) <> None
             \/ serial_configure env (n_connect s) <> None)
            /\ instrument s1 = None)).
Proof.
  intros Hord.
  destruct (Instrument_new env (n_connect s)) as [e|] eqn:En;
    [|destruct (serial_configure env (n_connect s)) as [e|] eqn:Ec].
  3:{ rewrite (connect_ok env cfg s En Ec).
      eexists _, [_; _]. split; [reflexivity|]. cbn.
      repeat split. left. repeat split. discriminate. }
  all: destruct (connect_fail env cfg s Hord) as (e' & new & Heq & Hk & Hw & evs & Ht & Hf);
    [ rewrite ?En, ?Ec; (left; discriminate) || (right; discriminate) | ].
  all: rewrite Heq; eexists _, (_ :: evs); split; [reflexivity|]; cbn;
    rewrite Ht; repeat split; try assumption.
  all: right; split; [|reflexivity]; rewrite ?En, ?Ec;
    (left; discriminate) || (right; discriminate).
Qed.

Lemma write_connected_outcome env addr temperature s :
  (forall k a v fc e,
      Instrument_write_register env k a v fc = Some e -> is_Exception e = true) ->
  exists b s1 evs,
    write_connected env addr temperature s = (Returned b, s1)
    /\ n_connect s1 = n_connect s
    /\ trace s1 = (evs ++ trace s)%list
    /\ ((b = false /\ instrument s1 = None) \/ (b = true /\ instrument s1 = instrument s))
    /\ ((exists e, quantize temperature = Err e) /\ b = false
           /\ n_write s1 = n_write s /\ filter is_write_event (rev evs) = []
        \/ exists v, quantize temperature = Ok v
           /\ n_write s1 = S (n_write s)
           /\ filter is_write_event (rev evs) = [EWriteRegister addr v 6]
           /\ (b = true <->
               Instrument_write_register env (n_write s) addr v 6 = None
               /\ py_format_f temperature = Ok tt)).
Proof.
  intros Hw. unfold write_connected.
  destruct (quantize temperature) as [v|e] eqn:Hq.
  - destruct (Instrument_write_register env (n_write s) addr v 6) as [e|] eqn:Ho.
    + rewrite (Hw _ _ _ _ _ Ho).
      eexists false, _, [_; _]. split; [reflexivity|]. cbn.
      repeat split; auto. right. exists v.
      do 3 (split; [auto|]). split; [discriminate|intros [? ?]; congruence].
    + destruct (py_format_f temperature) as [[]|e] eqn:Hf.
      * eexists true, _, [_; _]. split; [reflexivity|]. cbn.
        repeat split; auto. right. exists v. repeat split; auto.
      * eexists false, _, [_; _]. split; [reflexivity|]. cbn.
        repeat split; auto. right. exists v.
        do 3 (split; [auto|]). split; [discriminate|intros [? ?]; congruence].
  - eexists false, _, [_]. split; [reflexivity|]. cbn.
    repeat split; auto. left. repeat split; eauto.
Qed.

Lemma forallb_not_write_filter evs :
  forallb (fun e => negb (is_write_event e)) evs = true ->
  filter is_write_event (rev evs) = [].
Proof.
  intros H. induction evs as [|e evs IH]; [reflexivity|].
  cbn in H. apply andb_true_iff in H as [He Hr]. cbn.
  rewrite filter_app, (IH Hr). cbn.
  destruct (is_write_event e); [discriminate|reflexivity].
Qed.

Lemma write_temperature_outcome env cfg addr temperature s :
  transport_errors_ordinary env ->
  exists b s1,
    write_temperature env cfg addr temperature s = (Returned b, s1)
    /\ call_summary env cfg addr temperature s b s1.
Proof.
  intros Hord. pose proof Hord as (_ & _ & Hw).
  destruct (instrument s) as [i|] eqn:Hi.
  - rewrite (write_temperature_connected env cfg addr temperature s i Hi).
    destruct (write_connected_outcome env addr temperature s Hw)
      as (b & s1 & evs & Heq & Hk & Ht & Hst & Hwr).
    exists b, s1. split; [assumption|].
    rewrite Hi in Hst.
    assert (Hem : emitted s s1 = rev evs) by (apply emitted_app; assumption).
    constructor.
    + left. split; congruence.
    + destruct Hst as [[-> ->]|[-> ->]]; [left|right]; split; congruence.
    + rewrite Hem. destruct Hwr as [(He & -> & Hn & Hf)|(v & Hq & Hn & Hf & Hb)].
      * left. repeat split; auto.
      * right. exists v. do 3 (split; [auto|]). exact Hb.
    + left. congruence.
  - rewrite (write_temperature_disconnected env cfg addr temperature s Hi).
    destruct (connect_outcome env cfg s Hord)
      as (s0 & pre & Hc & Hk0 & Hw0 & Ht0 & Hpre & Hcases).
    rewrite Hc.
    destruct Hcases as [(Hn & Hs & Hi0)|(Hrej & Hi0)].
    + destruct (instrument s0) as [i0|] eqn:Ei0; [|now elim Hi0].
      destruct (write_connected_outcome env addr temperature s0 Hw)
        as (b & s1 & evs & Heq & Hk & Ht & Hst & Hwr).
      exists b, s1. split; [assumption|].
      assert (Hem : emitted s s1
                    = EInstrument (port cfg) (slave_address cfg)
                        :: rev pre ++ rev evs).
      { rewrite (emitted_app s s1 (evs ++ pre ++ [EInstrument (port cfg) (slave_address cfg)])).
        - rewrite !rev_app_distr. reflexivity.
        - rewrite Ht, Ht0, <- !app_assoc. reflexivity. }
      assert (Hfl : filter is_write_event (emitted s s1)
                    = filter is_write_event (rev evs)).
      { rewrite Hem. cbn. rewrite filter_app.
        rewrite (forallb_not_write_filter pre Hpre). reflexivity. }
      constructor.
      * right. repeat split; try congruence. now rewrite Hem.
      * rewrite Ei0 in Hst.
        destruct Hst as [[-> ->]|[-> ->]]; [left|right]; split; congruence.
      * rewrite Hfl, <- Hw0.
        destruct Hwr as [(He & -> & Hnw & Hf)|(v & Hq & Hnw & Hf & Hb)].
        -- left. repeat split; auto.
        -- right. exists v. do 3 (split; [auto|]). exact Hb.
      * right. left. split; assumption.
    + rewrite Hi0. exists false, s0. split; [reflexivity|].
      assert (Hem : emitted s s0
                    = EInstrument (port cfg) (slave_address cfg) :: rev pre).
      { rewrite (emitted_app s s0 (pre ++ [EInstrument (port cfg) (slave_address cfg)])).
        - rewrite rev_app_distr. reflexivity.
        - rewrite Ht0, <- app_assoc. reflexivity. }
      constructor.
      * right. repeat split; try congruence. now rewrite Hem.
      * left. split; [reflexivity|assumption].
      * left. rewrite Hem. cbn. rewrite (forallb_not_write_filter pre Hpre).
        repeat split; auto.
      * right. right. repeat split; assumption.
Qed.

(** C10. Whatever the register address, the temperature value (a float, or
    anything else such as the pair [None, None]) and the answers of the
    serial library, as long as these are ordinary errors,
    [write_temperature] returns a boolean and raises nothing: a value
    that does not convert, a [write_register] that raises and a session
    that cannot be established each give [False]. *)
Theorem write_temperature_never_raises env cfg addr temperature s :
  transport_errors_ordinary env ->
  exists b,
    fst (write_temperature env cfg addr temperature s) = Returned b
    /\ (forall e, quantize temperature = Err e -> b = false)
    /\ (forall v e, quantize temperature = Ok v ->
          Instrument_write_register env (n_write s) addr v 6 = Some e ->
          b = false)
    /\ (~ session_available env s -> b = false).
Proof.
  intros Hord.
  destruct (write_temperature_outcome env cfg addr temperature s Hord)
    as (b & s1 & Heq & [Hc Hst Hw Hs]).
  exists b. rewrite Heq. split; [reflexivity|].
  repeat split.
  - intros e He. destruct Hw as [(-> & _)|(v & Hq & _)]; congruence.
  - intros v e Hq Ho.
    destruct Hw as [(-> & _)|(v' & Hq' & _ & _ & Hb)]; [reflexivity|].
    destruct b; [|reflexivity].
    assert (v' = v) by congruence. subst v'.
    destruct (proj1 Hb eq_refl) as [Hnone _]. rewrite Hnone in Ho. discriminate.
  - intros Hno. destruct Hs as [H|[H|(-> & _)]]; [| |reflexivity];
      elim Hno; [left|right]; assumption.
Qed.

(** C1, as amended. For a float [t], a call of [write_temperature] issues
    at most one [write_register], to the given address, with function code
    6 and the integer [round_toward_zero(t * 10)] computed without any
    reduction to 16 bits; when a session is available and [t * 10] is
    finite the call issues exactly that write; when [t * 10] is NaN or
    infinite it issues none. *)
Theorem write_temperature_quantization env cfg addr t s :
  transport_errors_ordinary env ->
  let s' := snd (write_temperature env cfg addr (VFloat t) s) in
  let writes := filter is_write_event (emitted s s') in
  match Float.trunc (Float.mul t Float.ten) with
  | Some v =>
      (writes = [] \/ writes = [EWriteRegister addr v 6])
      /\ (session_available env s -> writes = [EWriteRegister addr v 6])
  | None => writes = []
  end.
Proof.
  intros Hord s' writes. subst s' writes.
  destruct (write_temperature_outcome env cfg addr (VFloat t) s Hord)
    as (b & s1 & Heq & [Hc Hst Hw Hs]).
  rewrite Heq. cbn [snd]. rewrite quantize_float in Hw.
  destruct (Float.trunc (Float.mul t Float.ten)) as [v|] eqn:Ht.
  - apply to_int_trunc in Ht. rewrite Ht in Hw.
    destruct Hw as [(-> & Hn & Hf & Hwhy)|(v' & Hq & Hn & Hf & Hb)].
    + split; [left; assumption|]. intros Hav.
      destruct Hwhy as [(e & He)|(Hi & Hrej)]; [discriminate|].
      destruct Hav as [Hav|(Hn1 & Hn2)]; [contradiction|].
      destruct Hrej; contradiction.
    + inversion Hq; subst v'. split; [right|intros _]; assumption.
  - destruct Hw as [(_ & _ & Hf & _)|(v & Hq & _)]; [assumption|].
    apply to_int_trunc in Hq. congruence.
Qed.

(** C2. From any state, hence at any point of any sequence of calls, let a
    session be held or the port open, and let the temperature convert to
    the integer [v]. The call then issues exactly one [write_register]
    (no retry). If the transport fails that write, whatever the error,
    the call returns [False] and the session is torn down ([instrument]
    is [None]), and the next call, whatever its arguments, makes one
    connection attempt and makes it before anything else, hence before
    any frame. If the transport accepts the write (and the value can be
    printed with one decimal, as every float can), the call returns
    [True], the session is kept and the next call does not reconnect. *)
Theorem write_failure_reconnects env cfg addr temperature v addr2 temperature2 s :
  transport_errors_ordinary env ->
  session_available env s ->
  quantize temperature = Ok v ->
  let r1 := write_temperature env cfg addr temperature s in
  let s1 := snd r1 in
  let s2 := snd (write_temperature env cfg addr2 temperature2 s1) in
  filter is_write_event (emitted s s1) = [EWriteRegister addr v 6]
  /\ n_write s1 = S (n_write s)
  /\ (forall e,
         Instrument_write_register env (n_write s) addr v 6 = Some e ->
         fst r1 = Returned false
         /\ instrument s1 = None
         /\ n_connect s2 = S (n_connect s1)
         /\ hd_error (emitted s1 s2)
            = Some (EInstrument (port cfg) (slave_address cfg)))
  /\ (Instrument_write_register env (n_write s) addr v 6 = None ->
      py_format_f temperature = Ok tt ->
      fst r1 = Returned true
      /\ instrument s1 <> None
      /\ n_connect s2 = n_connect s1).
Proof.
  intros Hord Hav Hq r1 s1 s2. subst r1 s1 s2.
  destruct (write_temperature_outcome env cfg addr temperature s Hord)
    as (b & s1 & Heq & [Hc Hst Hw Hs]).
  rewrite Heq. cbn [fst snd].
  destruct (write_temperature_outcome env cfg addr2 temperature2 s1 Hord)
    as (b2 & s2 & Heq2 & [Hc2 _ _ _]).
  rewrite Heq2. cbn [snd].
  destruct Hw as [(_ & _ & _ & Hwhy)|(v' & Hq' & Hn & Hf & Hb)].
  { destruct Hwhy as [(e & He)|(Hi & Hrej)]; [congruence|].
    destruct Hav as [Hav|(Hn1 & Hn2)]; [contradiction|].
    destruct Hrej; contradiction. }
  assert (v' = v) by congruence. subst v'.
  split; [exact Hf|]. split; [exact Hn|]. split.
  - intros e Ho.
    assert (Hfalse : b = false).
    { destruct b; [|reflexivity].
      destruct (proj1 Hb eq_refl) as [Hnone _]. congruence. }
    subst b.
    assert (Hi : instrument s1 = None).
    { destruct Hst as [(_ & Hi)|(Hb' & _)]; [assumption|discriminate]. }
    repeat split; try assumption.
    + destruct Hc2 as [(Hne & _)|(_ & Hk & _)]; [contradiction|assumption].
    + destruct Hc2 as [(Hne & _)|(_ & _ & Hhd)]; [contradiction|assumption].
  - intros Ho Hfmt.
    assert (Htrue : b = true) by (apply Hb; split; assumption).
    subst b.
    assert (Hi : instrument s1 <> None).
    { destruct Hst as [(Hb' & _)|(_ & Hi)]; [discriminate|assumption]. }
    repeat split; try assumption.
    destruct Hc2 as [(_ & Hk)|(Hnone & _)]; [assumption|contradiction].
Qed.

(** C9, as amended. The constructor makes one connection attempt itself and
    leaves the writer connected exactly when the port opens and
    configures. After construction [write_temperature] attempts a
    connection only when it finds no session, then exactly once; when that
    attempt fails the call returns [False], the writer stays disconnected
    and no frame is written. *)
Theorem writer_connection_policy env cfg :
  transport_errors_ordinary env ->
  (forall s,
      let r := ModbusRTUWriter_init env cfg s in
      fst r = Returned tt
      /\ n_connect (snd r) = S (n_connect s)
      /\ (instrument (snd r) <> None <->
          Instrument_new env (n_connect s) = None
          /\ serial_configure env (n_connect s) = None))
  /\ (forall s addr temperature,
         let s' := snd (write_temperature env cfg addr temperature s) in
         (instrument s <> None -> n_connect s' = n_connect s)
         /\ (instrument s = None -> n_connect s' = S (n_connect s))
         /\ (instrument s = None ->
             Instrument_new env (n_connect s) <> None
             \/ serial_configure env (n_connect s) <> None ->
             fst (write_temperature env cfg addr temperature s) = Returned false
             /\ instrument s' = None
             /\ n_write s' = n_write s)).
Proof.
  intros Hord. split.
  - intros s r. subst r.
    unfold ModbusRTUWriter_init, bind, modify.
    destruct (connect_outcome env cfg (with_instrument None s) Hord)
      as (s1 & evs & Hc & Hk & _ & _ & _ & Hcases).
    rewrite Hc. cbn [fst snd]. cbn in Hk, Hcases.
    repeat split; try assumption.
    + destruct Hcases as [(Hn & _)|(_ & Hi)]; [assumption|contradiction].
    + destruct Hcases as [(_ & Hs & _)|(_ & Hi)]; [assumption|contradiction].
    + intros (Hn & Hs).
      destruct Hcases as [(_ & _ & Hi)|([Hr|Hr] & _)];
        [assumption|contradiction|contradiction].
  - intros s addr temperature s'. subst s'.
    destruct (write_temperature_outcome env cfg addr temperature s Hord)
      as (b & s1 & Heq & [Hc Hst Hw Hs]).
    rewrite Heq. cbn [fst snd].
    repeat split.
    + intros Hi. destruct Hc as [(_ & Hk)|(Hn & _)]; [assumption|contradiction].
    + intros Hi. destruct Hc as [(Hn & _)|(_ & Hk & _)]; [contradiction|assumption].
    + destruct Hs as [Hi|[(Hn & Hc')|(-> & _)]];
        [contradiction| destruct H0; contradiction | reflexivity].
    + destruct Hs as [Hi|[(Hn & Hc')|(_ & Hi & _)]];
        [contradiction| destruct H0; contradiction | assumption].
    + destruct Hs as [Hi|[(Hn & Hc')|(_ & _ & Hn)]];
        [contradiction| destruct H0; contradiction | assumption].
Qed.

Lemma lstrip_spaces_app ws s : all_space ws -> lstrip (ws ++ s) = lstrip s.
Proof.
  induction 1 as [|c ws Hc _ IH]; [reflexivity|]. cbn. now rewrite Hc.
Qed.

Lemma lstrip_keeps_suffix body c tail :
  isspace c = false ->
  exists body', lstrip (body ++ c :: tail) = (body' ++ c :: tail)%list.
Proof.
  intros Hc. induction body as [|b body IH]; cbn.
  - exists []. now rewrite Hc.
  - destruct (isspace b).
    + exact IH.
    + exists (b :: body). reflexivity.
Qed.

Lemma rstrip_spaces s c ws :
  isspace c = false -> all_space ws -> rstrip (s ++ c :: ws) = (s ++ [c])%list.
Proof.
  intros Hc Hws. unfold rstrip.
  replace (s ++ c :: ws)%list with ((s ++ [c]) ++ ws)%list
    by now rewrite <- app_assoc.
  rewrite rev_app_distr, lstrip_spaces_app.
  - rewrite rev_app_distr. cbn. rewrite Hc. cbn.
    now rewrite rev_involutive.
  - apply Forall_rev. exact Hws.
Qed.

Lemma last_chars_app pre suf n :
  length suf = n -> last_chars n (pre ++ suf) = suf.
Proof.
  intros <-. unfold last_chars. rewrite length_app.
  replace (length pre + length suf - length suf)%nat with (length pre) by lia.
  rewrite skipn_app, skipn_all, Nat.sub_diag. reflexivity.
Qed.

(** A first line that ends with the marker, up to trailing white space,
    passes the check of the loop. *)
Lemma crc_present body ws :
  all_space ws -> crc_missing (body ++ lit "YES" ++ ws) = false.
Proof.
  intros Hws. unfold crc_missing, strip.
  change (body ++ lit "YES" ++ ws)%list
    with (body ++ "Y"%char :: "E"%char :: "S"%char :: ws)%list.
  replace (body ++ "Y"%char :: "E"%char :: "S"%char :: ws)%list
    with ((body ++ ["Y"%char; "E"%char]) ++ "S"%char :: ws)%list
    by now rewrite <- app_assoc.
  rewrite (rstrip_spaces (body ++ ["Y"%char; "E"%char]) "S"%char ws eq_refl Hws), <- !app_assoc. cbn [app].
  destruct (lstrip_keeps_suffix body "Y"%char ["E"%char; "S"%char] eq_refl)
    as (body' & ->).
  change (body' ++ ["Y"%char; "E"%char; "S"%char])%list
    with (body' ++ lit "YES")%list.
  rewrite (last_chars_app body' (lit "YES") 3 eq_refl). reflexivity.
Qed.

Lemma starts_with_app p s : starts_with p (p ++ s) = true.
Proof.
  induction p as [|a p IH]; [reflexivity|]. cbn [app starts_with].
  now rewrite Ascii.eqb_refl.
Qed.

(** [find] returns the first occurrence: if "t=" does not occur in [pre],
    it is found right after it. *)
Lemma find_from_first pre tail i :
  find_from (lit "t=") pre i = -1 -> 0 <= i ->
  find_from (lit "t=") (pre ++ lit "t=" ++ tail) i = i + Z.of_nat (length pre).
Proof.
  revert i. induction pre as [|c pre IH]; intros i Hno Hi.
  - cbn [app length].
    destruct (lit "t=" ++ tail)%list as [|x r] eqn:E; [discriminate|].
    cbn [find_from]. rewrite <- E, starts_with_app. cbn. lia.
  - cbn [app find_from] in *.
    destruct (starts_with (lit "t=") (c :: pre)) eqn:Es.
    + lia.
    + assert (Es' : starts_with (lit "t=") (c :: pre ++ lit "t=" ++ tail) = false).
      { change (lit "t=") with ["t"%char; "="%char] in *.
        cbn [starts_with app] in Es |- *.
        destruct (Ascii.eqb "t" c); [|reflexivity].
        destruct pre as [|d pre]; [reflexivity|].
        cbn [starts_with app andb] in Es |- *.
        destruct (Ascii.eqb "=" d); [discriminate|reflexivity]. }
      rewrite Es'. rewrite IH by (assumption || lia).
      cbn [length]. rewrite Nat2Z.inj_succ. lia.
Qed.

Lemma slice_after pre mid tail :
  slice_from (Z.of_nat (length pre) + Z.of_nat (length mid)) (pre ++ mid ++ tail) = tail.
Proof.
  unfold slice_from. rewrite <- Nat2Z.inj_add, Nat2Z.id, app_assoc.
  rewrite <- length_app, skipn_app, skipn_all, Nat.sub_diag. reflexivity.
Qed.

Lemma digit_code c : isdigit c = true -> (48 <= code c <= 57)%N.
Proof.
  unfold isdigit. intros H. apply andb_true_iff in H as [H1 H2].
  apply N.leb_le in H1, H2. lia.
Qed.

Lemma digit_not_float_space c : isdigit c = true -> float_isspace c = false.
Proof.
  intros H. apply digit_code in H. unfold float_isspace.
  repeat match goal with
         | |- context [(?a <=? ?b)%N] => destruct (N.leb_spec a b)
         | |- context [(?a =? ?b)%N] => destruct (N.eqb_spec a b)
         end; try reflexivity; lia.
Qed.

Lemma skip_spaces_app ws s :
  float_space ws -> FloatParse.skip_spaces (ws ++ s) = FloatParse.skip_spaces s.
Proof.
  induction 1 as [|c ws Hc _ IH]; [reflexivity|]. cbn. now rewrite Hc.
Qed.

(** [float()] drops the white space that follows the last character. *)
Lemma skip_trailing_spaces s c ws :
  float_isspace c = false -> float_space ws ->
  rev (FloatParse.skip_spaces (rev (s ++ c :: ws))) = (s ++ [c])%list.
Proof.
  intros Hc Hws.
  replace (s ++ c :: ws)%list with ((s ++ [c]) ++ ws)%list
    by now rewrite <- app_assoc.
  rewrite rev_app_distr, skip_spaces_app.
  - rewrite rev_app_distr. cbn. rewrite Hc. cbn.
    now rewrite rev_involutive.
  - apply Forall_rev. exact Hws.
Qed.

Lemma digit_not_char c n :
  isdigit c = true -> (n < 48 \/ 57 < n)%N -> (code c =? n)%N = false.
Proof.
  intros H Hn. apply digit_code in H. apply N.eqb_neq. lia.
Qed.

Lemma span_all_digits ds : all_digits ds -> FloatParse.span_digits ds = (ds, []).
Proof.
  induction 1 as [|c ds Hc _ IH]; [reflexivity|].
  cbn [FloatParse.span_digits]. now rewrite Hc, IH.
Qed.

Lemma digits_value_nonneg ds : all_digits ds -> 0 <= FloatParse.digits_value ds.
Proof.
  unfold FloatParse.digits_value. intros H.
  assert (G : forall acc, 0 <= acc ->
              0 <= fold_left (fun a c => 10 * a + FloatParse.digit_val c) ds acc).
  { induction H as [|c ds Hc _ IH]; intros acc Hacc; [assumption|].
    cbn [fold_left]. apply IH. apply digit_code in Hc.
    unfold FloatParse.digit_val. lia. }
  apply G. lia.
Qed.

Lemma parse_decimal_digits ds :
  all_digits ds -> ds <> [] ->
  FloatParse.parse_decimal ds = Some (FloatParse.digits_value ds, 0).
Proof.
  intros Hd Hne. unfold FloatParse.parse_decimal.
  rewrite (span_all_digits ds Hd), app_nil_r.
  destruct ds as [|c ds]; [contradiction|reflexivity].
Qed.

Lemma no_underscores prev s :
  Forall (fun c => (code c =? 95)%N = false) s ->
  match prev with Some p => (code p =? 95)%N = false | None => True end ->
  FloatParse.underscores_ok prev s = true /\ FloatParse.remove_underscores s = s.
Proof.
  intros H. revert prev. induction H as [|c s Hc _ IH]; intros prev Hp.
  - cbn. destruct prev as [p|]; [|auto]. now rewrite Hp.
  - cbn [FloatParse.underscores_ok FloatParse.remove_underscores filter].
    rewrite Hc. cbn [negb].
    destruct (IH (Some c) Hc) as [-> Hr].
    unfold FloatParse.remove_underscores in Hr. rewrite Hr.
    destruct prev as [p|]; [rewrite Hp|]; auto.
Qed.

Lemma of_decimal_integer neg m :
  0 <= m ->
  Float.of_decimal neg m 0 = Float.of_Z_signed neg (cond_Zopp neg m).
Proof.
  intros Hm. unfold Float.of_decimal, Float.of_Z_signed.
  destruct m as [|p|p]; [destruct neg; reflexivity| |lia].
  change (10 ^ 0) with 1. now rewrite Z.mul_1_r.
Qed.

(** [float] of an integer literal, white space allowed after it. *)
Lemma float_of_integer_literal sgn neg ds ws :
  sign_prefix sgn neg -> all_digits ds -> ds <> [] -> float_space ws ->
  FloatParse.float_of_str (sgn ++ ds ++ ws)
  = Ok (Float.of_Z_signed neg (cond_Zopp neg (FloatParse.digits_value ds))).
Proof.
  intros Hs Hd Hne Hws. unfold FloatParse.float_of_str.
  assert (Hstrip : FloatParse.trim (sgn ++ ds ++ ws) = (sgn ++ ds)%list).
  { destruct (exists_last Hne) as (ds' & d & ->).
    assert (Hdd : isdigit d = true).
    { apply Forall_app in Hd as [_ Hd]. now inversion Hd. }
    unfold FloatParse.trim.
    replace (sgn ++ (ds' ++ [d]) ++ ws)%list with ((sgn ++ ds') ++ d :: ws)%list
      by (rewrite <- !app_assoc; reflexivity).
    rewrite (skip_trailing_spaces (sgn ++ ds') d ws
               (digit_not_float_space d Hdd) Hws).
    rewrite <- app_assoc.
    destruct Hs; cbn [app lit list_ascii_of_string FloatParse.skip_spaces];
      try reflexivity.
    destruct (ds' ++ [d])%list as [|c r] eqn:E.
    - destruct ds'; discriminate.
    - assert (Hc : isdigit c = true).
      { now inversion Hd. }
      cbn [FloatParse.skip_spaces]. now rewrite (digit_not_float_space c Hc). }
  rewrite Hstrip.
  assert (Hnu : Forall (fun c => (code c =? 95)%N = false) (sgn ++ ds)).
  { apply Forall_app. split.
    - destruct Hs; repeat constructor.
    - eapply Forall_impl; [|exact Hd]. intros c Hc.
      apply digit_not_char; [assumption|lia]. }
  destruct (no_underscores None (sgn ++ ds) Hnu I) as [-> ->].
  assert (Hsplit : FloatParse.split_sign (sgn ++ ds) = (neg, ds)).
  { destruct ds as [|c r]; [contradiction|].
    assert (Hc : isdigit c = true) by now inversion Hd.
    destruct Hs; try reflexivity.
    cbn [app FloatParse.split_sign].
    rewrite (digit_not_char c 45 Hc), (digit_not_char c 43 Hc) by lia.
    reflexivity. }
  rewrite Hsplit, (parse_decimal_digits ds Hd Hne).
  now rewrite (of_decimal_integer neg _ (digits_value_nonneg ds Hd)).
Qed.

Lemma crc_loop_validated env fuel sensor_id line0 rest s :
  crc_missing line0 = false ->
  crc_loop env fuel sensor_id (line0 :: rest) s
  = (Returned (inl (line0 :: rest)), s).
Proof.
  intros H. destruct fuel; cbn [crc_loop]; unfold bind, lift, list_getitem;
    cbn [nth_error ret]; rewrite H; reflexivity.
Qed.

Lemma parse_temperature_integer line0 pre sgn neg ds ws rest :
  find (lit "t=") pre = -1 ->
  sign_prefix sgn neg -> all_digits ds -> ds <> [] -> float_space ws ->
  parse_temperature (line0 :: (pre ++ lit "t=" ++ sgn ++ ds ++ ws) :: rest)
  = Ok (VFloat (Float.div
                  (Float.of_Z_signed neg (cond_Zopp neg (FloatParse.digits_value ds)))
                  Float.thousand)).
Proof.
  intros Hpre Hs Hd Hne Hws. unfold parse_temperature, list_getitem.
  cbn [nth_error]. unfold find.
  rewrite (find_from_first pre (sgn ++ ds ++ ws) 0 Hpre) by lia.
  destruct (0 + Z.of_nat (length pre) =? -1) eqn:E; [apply Z.eqb_eq in E; lia|].
  replace (0 + Z.of_nat (length pre) + 2)
    with (Z.of_nat (length pre) + Z.of_nat (length (lit "t="))) by (cbn; lia).
  rewrite slice_after, (float_of_integer_literal sgn neg ds ws Hs Hd Hne Hws).
  reflexivity.
Qed.

(** C6. When the first line ends with [YES] (white space may follow) and
    the second line holds the first [t=] followed by an integer literal
    (optional sign, digits, then up to the end of the line only white
    space that [float()] skips: the newline, blanks, tabs and the like),
    [read_temp] returns the float of that integer divided by 1000.0: one
    correctly rounded binary64 division, no other rounding. *)
Theorem read_temp_exact env fuel sensor_id s body ws0 pre sgn neg ds ws rest :
  open_readlines env (n_open s) (device_file sensor_id)
  = Ok ((body ++ lit "YES" ++ ws0)
          :: (pre ++ lit "t=" ++ sgn ++ ds ++ ws) :: rest)%list ->
  all_space ws0 ->
  find (lit "t=") pre = -1 ->
  sign_prefix sgn neg -> all_digits ds -> ds <> [] -> float_space ws ->
  let millidegrees := cond_Zopp neg (FloatParse.digits_value ds) in
  fst (read_temp env fuel sensor_id s)
  = Returned (VFloat (Float.div (Float.of_Z_signed neg millidegrees)
                        Float.thousand)).
Proof.
  intros Hread Hws0 Hpre Hs Hd Hne Hws millidegrees.
  unfold read_temp, read_temp_raw. unfold bind at 1 2 3. unfold gets, modify.
  cbn [fst snd]. fold (device_file sensor_id). rewrite Hread.
  unfold ret at 1. cbn [length Nat.ltb Nat.leb].
  unfold bind. rewrite (crc_loop_validated _ _ _ _ _ _ (crc_present body ws0 Hws0)).
  rewrite (parse_temperature_integer _ pre sgn neg ds ws rest Hpre Hs Hd Hne Hws).
  reflexivity.
Qed.

Lemma concat_repeat_shift {A} (p : list A) n :
  (concat (repeat p n) ++ p = p ++ concat (repeat p n))%list.
Proof.
  induction n as [|n IH]; cbn [repeat concat app].
  - now rewrite app_nil_r.
  - now rewrite <- app_assoc, IH.
Qed.

Lemma after_retries_counts n path s :
  n_open (after_retries n path s) = (n_open s + n)%nat
  /\ n_sleep (after_retries n path s) = (n_sleep s + n)%nat
  /\ trace (after_retries n path s)
     = (concat (repeat [EOpen path; ESleep 200] n) ++ trace s)%list
  /\ instrument (after_retries n path s) = instrument s.
Proof.
  revert s. induction n as [|n IH]; intros s; cbn [after_retries].
  - rewrite !Nat.add_0_r. auto.
  - destruct (IH (retry_step path s)) as (Ho & Hs & Ht & Hi).
    rewrite Ho, Hs, Ht, Hi.
    cbn [retry_step emit bump_open bump_sleep n_open n_sleep trace instrument].
    repeat split; try lia.
    cbn [repeat concat].
    change (EOpen path :: ESleep 200 :: trace s)
      with ([EOpen path; ESleep 200] ++ trace s)%list.
    now rewrite app_assoc, concat_repeat_shift, <- app_assoc.
Qed.

Section Retry.
Variable env : Env.
Variable sensor_id : str.

Lemma retry_iteration fuel line0 rest s :
  crc_missing line0 = true ->
  sleep_interrupted env (n_sleep s) = false ->
  crc_loop env (S fuel) sensor_id (line0 :: rest) s
  = match open_readlines env (n_open s) (device_file sensor_id) with
    | Ok lines' => crc_loop env fuel sensor_id lines' (retry_step (device_file sensor_id) s)
    | Err _ => (Returned (inr none_pair), retry_step (device_file sensor_id) s)
    end.
Proof.
  intros Hc Hs. cbn [crc_loop].
  unfold bind at 1. unfold lift, list_getitem. cbn [nth_error ret].
  rewrite Hc. unfold time_sleep, read_temp_raw.
  unfold bind, gets, modify. cbn [fst snd]. rewrite Hs. unfold ret at 1.
  cbn [n_open emit bump_sleep]. fold (device_file sensor_id).
  destruct (open_readlines env (n_open s) (device_file sensor_id)); reflexivity.
Qed.

Lemma crc_loop_retries J : forall fuel lines s,
  no_marker lines = true ->
  (forall i, (i < J)%nat ->
     exists l, open_readlines env (n_open s + i) (device_file sensor_id) = Ok l
               /\ no_marker l = true) ->
  (forall i, (i <= J)%nat -> sleep_interrupted env (n_sleep s + i) = false) ->
  (J < fuel)%nat ->
  crc_loop env fuel sensor_id lines s
  = match open_readlines env (n_open s + J) (device_file sensor_id) with
    | Ok l => crc_loop env (fuel - S J) sensor_id l (after_retries (S J) (device_file sensor_id) s)
    | Err _ => (Returned (inr none_pair), after_retries (S J) (device_file sensor_id) s)
    end.
Proof.
  induction J as [|J IH]; intros fuel lines s Hm Hreads Hsleeps Hfuel.
  - destruct fuel as [|fuel]; [lia|].
    destruct lines as [|line0 rest]; [discriminate|]. cbn in Hm.
    rewrite retry_iteration; [|assumption|].
    + rewrite Nat.add_0_r. cbn [Nat.sub after_retries]. rewrite ?Nat.sub_0_r. reflexivity.
    + specialize (Hsleeps 0%nat (Nat.le_refl _)). now rewrite Nat.add_0_r in Hsleeps.
  - destruct fuel as [|fuel]; [lia|].
    destruct lines as [|line0 rest]; [discriminate|]. cbn in Hm.
    rewrite retry_iteration; [|assumption|].
    + destruct (Hreads 0%nat) as (l & Hl & Hlm); [lia|].
      rewrite Nat.add_0_r in Hl. rewrite Hl.
      rewrite (IH fuel l (retry_step (device_file sensor_id) s) Hlm).
      * cbn [retry_step emit bump_open bump_sleep n_open].
        rewrite <- Nat.add_succ_comm. reflexivity.
      * intros i Hi. destruct (Hreads (S i)) as (l' & Hl' & Hlm'); [lia|].
        exists l'. split; [|assumption].
        cbn [retry_step emit bump_open bump_sleep n_open].
        now rewrite Nat.add_succ_comm.
      * intros i Hi. cbn [retry_step emit bump_open bump_sleep n_sleep].
        rewrite Nat.add_succ_comm. apply Hsleeps. lia.
      * lia.
    + specialize (Hsleeps 0%nat (Nat.le_0_l _)). now rewrite Nat.add_0_r in Hsleeps.
Qed.

Lemma crc_loop_starves fuel : forall lines s,
  no_marker lines = true ->
  (forall i, (i < fuel)%nat ->
     exists l, open_readlines env (n_open s + i) (device_file sensor_id) = Ok l
               /\ no_marker l = true) ->
  (forall i, (i < fuel)%nat -> sleep_interrupted env (n_sleep s + i) = false) ->
  fst (crc_loop env fuel sensor_id lines s) = OutOfFuel.
Proof.
  induction fuel as [|fuel IH]; intros lines s Hm Hreads Hsleeps;
    destruct lines as [|line0 rest]; try discriminate; cbn in Hm.
  - cbn [crc_loop]. unfold bind, lift, list_getitem. cbn [nth_error ret].
    rewrite Hm. reflexivity.
  - rewrite retry_iteration; [|assumption|].
    + destruct (Hreads 0%nat) as (l & Hl & Hlm); [lia|].
      rewrite Nat.add_0_r in Hl. rewrite Hl. apply IH; [assumption| |].
      * intros i Hi. destruct (Hreads (S i)) as (l' & Hl' & Hlm'); [lia|].
        exists l'. split; [|assumption].
        cbn [retry_step emit bump_open bump_sleep n_open].
        now rewrite Nat.add_succ_comm.
      * intros i Hi. cbn [retry_step emit bump_open bump_sleep n_sleep].
        rewrite Nat.add_succ_comm. apply Hsleeps. lia.
    + specialize (Hsleeps 0%nat (Nat.lt_0_succ _)). now rewrite Nat.add_0_r in Hsleeps.
Qed.
End Retry.

Lemma read_temp_first_read env fuel sensor_id s lines :
  open_readlines env (n_open s) (device_file sensor_id) = Ok lines ->
  (2 <= length lines)%nat ->
  read_temp env fuel sensor_id s
  = match crc_loop env fuel sensor_id lines (first_read (device_file sensor_id) s) with
    | (Returned (inl lines'), s') => lift (parse_temperature lines') s'
    | (Returned (inr early), s') => (Returned early, s')
    | (Raised e, s') => (Raised e, s')
    | (OutOfFuel, s') => (OutOfFuel, s')
    end.
Proof.
  intros Hread Hlen. unfold read_temp, read_temp_raw.
  unfold bind at 1 2 3. unfold gets, modify. cbn [fst snd].
  fold (device_file sensor_id). rewrite Hread. unfold ret at 1.
  destruct (length lines <? 2)%nat eqn:E; [apply Nat.ltb_lt in E; lia|].
  unfold bind. fold (first_read (device_file sensor_id) s).
  destruct (crc_loop env fuel sensor_id lines
              (first_read (device_file sensor_id) s)) as [[[l|v]|e|] s'];
    reflexivity.
Qed.

(** X18. The retry discipline of [read_temp]. Let the first [K >= 1] reads
    of the probe deliver payloads (the first of at least two lines, the
    others not empty) whose first line has no [YES], the sleeps not being
    interrupted. Then [read_temp] does not return within fewer than [K]
    rounds of the loop; it sleeps 200 ms before each re-read and makes [K]
    re-reads; if the [K]-th re-read fails it returns the pair
    [None, None], and if it delivers a first line with the marker it goes
    on to parse that payload. *)
Theorem read_temp_retries env sensor_id s K :
  let path := device_file sensor_id in
  let sK := after_retries K path (first_read path s) in
  (1 <= K)%nat ->
  (exists l, open_readlines env (n_open s) path = Ok l /\ (2 <= length l)%nat) ->
  (forall i, (i < K)%nat ->
     exists l, open_readlines env (n_open s + i) path = Ok l
               /\ no_marker l = true) ->
  (forall i, (i < K)%nat -> sleep_interrupted env (n_sleep s + i) = false) ->
  (forall fuel, (fuel < K)%nat ->
     fst (read_temp env fuel sensor_id s) = OutOfFuel)
  /\ (forall fuel e, (K <= fuel)%nat ->
        open_readlines env (n_open s + K) path = Err e ->
        read_temp env fuel sensor_id s = (Returned none_pair, sK))
  /\ (forall fuel line0 rest, (K <= fuel)%nat ->
        open_readlines env (n_open s + K) path = Ok (line0 :: rest) ->
        crc_missing line0 = false ->
        read_temp env fuel sensor_id s
        = lift (parse_temperature (line0 :: rest)) sK)
  /\ n_open sK = (n_open s + K + 1)%nat
  /\ n_sleep sK = (n_sleep s + K)%nat
  /\ trace sK
     = (concat (repeat [EOpen path; ESleep 200] K) ++ EOpen path :: trace s)%list.
Proof.
  intros path sK HK (l0 & Hl0 & Hlen) Hreads Hsleeps.
  destruct (Hreads 0%nat) as (l0' & Hl0' & Hm0); [lia|].
  rewrite Nat.add_0_r, Hl0 in Hl0'. inversion Hl0'; subst l0'. clear Hl0'.
  set (s1 := first_read path s).
  assert (Hreads1 : forall i, (i < K - 1)%nat ->
            exists l, open_readlines env (n_open s1 + i) path = Ok l
                      /\ no_marker l = true).
  { intros i Hi. destruct (Hreads (S i)) as (l & Hl & Hm); [lia|].
    exists l. split; [|assumption]. cbn. now rewrite <- Nat.add_succ_comm in Hl. }
  assert (Hsleeps1 : forall i, (i < K)%nat ->
            sleep_interrupted env (n_sleep s1 + i) = false)
    by (intros i Hi; apply Hsleeps; assumption).
  assert (Hidx : (n_open s1 + (K - 1) = n_open s + K)%nat) by (cbn; lia).
  repeat split.
  - intros fuel Hfuel.
    rewrite (read_temp_first_read env fuel sensor_id s l0 Hl0 Hlen).
    fold path. fold s1.
    assert (Hst : fst (crc_loop env fuel sensor_id l0 s1) = OutOfFuel).
    { apply crc_loop_starves; [assumption| |].
      - intros i Hi. apply Hreads1. lia.
      - intros i Hi. apply Hsleeps1. lia. }
    destruct (crc_loop env fuel sensor_id l0 s1) as [[[l|v]|e|] s'];
      cbn [fst] in Hst; try discriminate Hst. reflexivity.
  - intros fuel e Hfuel Hfinal.
    rewrite (read_temp_first_read env fuel sensor_id s l0 Hl0 Hlen).
    fold path. fold s1.
    rewrite (crc_loop_retries env sensor_id (K - 1) fuel l0 s1 Hm0); fold path.
    + rewrite Hidx, Hfinal. replace (S (K - 1)) with K by lia. reflexivity.
    + exact Hreads1.
    + intros i Hi. apply Hsleeps1. lia.
    + lia.
  - intros fuel line0 rest Hfuel Hfinal Hcrc.
    rewrite (read_temp_first_read env fuel sensor_id s l0 Hl0 Hlen).
    fold path. fold s1.
    rewrite (crc_loop_retries env sensor_id (K - 1) fuel l0 s1 Hm0); fold path.
    + rewrite Hidx, Hfinal. replace (S (K - 1)) with K by lia.
      rewrite crc_loop_validated by assumption. reflexivity.
    + exact Hreads1.
    + intros i Hi. apply Hsleeps1. lia.
    + lia.
  - subst sK s1. destruct (after_retries_counts K path (first_read path s)) as (-> & _). cbn. lia.
  - subst sK s1. destruct (after_retries_counts K path (first_read path s)) as (_ & -> & _). reflexivity.
  - subst sK s1. destruct (after_retries_counts K path (first_read path s)) as (_ & _ & -> & _). reflexivity.
Qed.

Lemma crc_loop_early env sensor_id fuel : forall lines s v s',
  crc_loop env fuel sensor_id lines s = (Returned (inr v), s') ->
  v = none_pair.
Proof.
  induction fuel as [|fuel IH]; intros lines s v s'; cbn [crc_loop];
    unfold bind at 1; unfold lift, list_getitem;
    destruct (nth_error lines 0) as [line0|]; cbn [ret raise];
    try discriminate;
    destruct (crc_missing line0); try discriminate.
  unfold time_sleep, read_temp_raw, bind, gets, modify. cbn [fst snd].
  destruct (sleep_interrupted env (n_sleep s)); [discriminate|].
  unfold ret at 1.
  destruct (open_readlines env _ _) as [lines'|e]; unfold ret.
  - apply IH.
  - intros H. now inversion H.
Qed.

(** [read_temp] never returns [None]: the test [temp_c is not None] of
    [get_all_temperatures] holds for each of its results. *)
Lemma read_temp_never_None env fuel sensor_id s v :
  fst (read_temp env fuel sensor_id s) = Returned v -> is_None v = false.
Proof.
  unfold read_temp, read_temp_raw. unfold bind at 1 2 3. unfold gets, modify.
  cbn [fst snd].
  destruct (open_readlines env (n_open s) (device_file sensor_id)) as [lines|e];
    unfold ret at 1.
  2:{ unfold ret. cbn. intros H. now inversion H. }
  destruct (length lines <? 2)%nat.
  { unfold ret. cbn. intros H. now inversion H. }
  unfold bind.
  destruct (crc_loop env fuel sensor_id lines _) as [[[l|early]|e|] s'] eqn:Hloop;
    cbn; try discriminate.
  - unfold lift, parse_temperature.
    destruct (list_getitem l 1) as [line1|e]; [|discriminate].
    destruct (find (lit "t=") line1 =? -1).
    { cbn. intros H. now inversion H. }
    destruct (FloatParse.float_of_str _); [|discriminate].
    cbn. intros H. now inversion H.
  - apply crc_loop_early in Hloop. subst early. intros H. now inversion H.
Qed.

Lemma dict_get_error {K V} (eqb : K -> K -> bool) (d : list (K * V)) k e :
  dict_get eqb d k = Err e -> e = KeyError.
Proof.
  induction d as [|[k' v'] d IH]; cbn; intros H.
  - now inversion H.
  - destruct (eqb k' k); [discriminate|auto].
Qed.

Lemma json_getitem_str_error v key e :
  json_getitem_str v key = Err e -> e = KeyError \/ e = TypeError.
Proof.
  destruct v; cbn; intros H; try (inversion H; auto; fail).
  left. eapply dict_get_error. exact H.
Qed.

Lemma json_getitem_0_error v e :
  json_getitem_0 v = Err e -> e = IndexError \/ e = KeyError \/ e = TypeError.
Proof.
  destruct v as [ | | | | [|c s] | [|x l] | ]; cbn; intros H;
    inversion H; auto.
Qed.

Lemma float_of_str_error s e :
  FloatParse.float_of_str s = Err e -> e = ValueError.
Proof.
  unfold FloatParse.float_of_str.
  destruct (FloatParse.underscores_ok None (FloatParse.trim s));
    [|now inversion 1].
  destruct (FloatParse.split_sign _) as [neg body].
  destruct (FloatParse.parse_decimal body) as [[m e10]|]; [discriminate|].
  destruct (FloatParse.parse_inf_or_nan neg body); [discriminate|now inversion 1].
Qed.

Lemma json_float_error v e :
  json_float v = Err e -> e = ValueError \/ e = TypeError \/ e = OverflowError.
Proof.
  destruct v; cbn; intros H; try (inversion H; auto; fail).
  - unfold Float.of_int in H. destruct (Float.of_Z z); inversion H; auto.
  - left. eapply float_of_str_error. exact H.
Qed.

(** X10. How [get_current_temperature] ends. It returns a float or [None];
    or it raises, and then the exception is one that neither handler
    covers and it is [IndexError] (from the indexing: an empty
    [current_condition]), [OverflowError] (from [float]: an integer too
    large for a float), or an exception that [requests.get] or
    [response.json()] itself raised, such as [RecursionError] for a deeply
    nested body. *)
Theorem get_current_temperature_escapes env city s :
  match fst (weather_modbus.get_current_temperature env city s) with
  | Returned (VFloat _) | Returned VNone => True
  | Returned _ | OutOfFuel => False
  | Raised e =>
      is_RequestException e = false /\ is_parse_error e = false
      /\ (e = IndexError \/ e = OverflowError
          \/ requests_get env (n_get s) (weather_url city) = Err e
          \/ exists resp,
               requests_get env (n_get s) (weather_url city) = Ok resp
               /\ json_body resp = Err e)
  end.
Proof.
  unfold weather_modbus.get_current_temperature, try_except2,
    weather_modbus.raise_for_status, weather_modbus.response_json,
    bind, gets, modify, lift, ret, raise, log_info, log_error.
  cbn [fst snd]. fold (weather_url city).
  destruct (requests_get env (n_get s) (weather_url city)) as [resp|e] eqn:Hget.
  2:{ destruct (is_RequestException e) eqn:E1; [exact I|].
      destruct (is_parse_error e) eqn:E2; [exact I|]. cbn.
      repeat split; auto. }
  destruct ((400 <=? status_code resp) && (status_code resp <? 600)); [exact I|].
  destruct (json_body resp) as [data|e] eqn:Hbody.
  2:{ destruct (is_RequestException e) eqn:E1; [exact I|].
      destruct (is_parse_error e) eqn:E2; [exact I|]. cbn.
      repeat split; auto. do 3 right. exists resp. auto. }
  destruct (json_getitem_str data _) as [cc|e] eqn:H1.
  2:{ apply json_getitem_str_error in H1 as [-> | ->]; exact I. }
  destruct (json_getitem_0 cc) as [first|e] eqn:H2.
  2:{ apply json_getitem_0_error in H2 as [-> | [-> | ->]]; cbn; auto. }
  destruct (json_getitem_str first _) as [t|e] eqn:H3.
  2:{ apply json_getitem_str_error in H3 as [-> | ->]; exact I. }
  destruct (json_float t) as [f|e] eqn:H4.
  2:{ apply json_float_error in H4 as [-> | [-> | ->]]; cbn; auto. }
  exact I.
Qed.

(** ** Evaluations, instances and counterexamples *)

(** C1, counterexample: with the session in place and a transport that
    accepts the frame, 4000.0 degrees hands 40000 to [write_register],
    which is not a signed 16-bit value. *)
Lemma write_temperature_not_int16 :
  ~ (forall v,
        In (EWriteRegister 4096 v 6)
          (emitted (connected_state modbus_config initial_state)
             (snd (write_temperature accepting_env modbus_config 4096
                     (VFloat f_4000)
                     (connected_state modbus_config initial_state)))) ->
        -32768 <= v <= 32767).
Proof.
  intros H. specialize (H 40000).
  assert (Hin : In (EWriteRegister 4096 40000 6)
                  (emitted (connected_state modbus_config initial_state)
                     (snd (write_temperature accepting_env modbus_config 4096
                             (VFloat f_4000)
                             (connected_state modbus_config initial_state)))))
    by (vm_compute; left; reflexivity).
  apply H in Hin. lia.
Qed.

(** C1, instance: 21.562 degrees on an accepting transport. *)
Lemma write_temperature_quantization_witness :
  let s' := snd (write_temperature accepting_env modbus_config 4096
                   (VFloat f_21_562) initial_state) in
  let writes := filter is_write_event (emitted initial_state s') in
  match Float.trunc (Float.mul f_21_562 Float.ten) with
  | Some v =>
      (writes = [] \/ writes = [EWriteRegister 4096 v 6])
      /\ (session_available accepting_env initial_state ->
          writes = [EWriteRegister 4096 v 6])
  | None => writes = []
  end.
Proof.
  apply (write_temperature_quantization accepting_env modbus_config 4096
           f_21_562 initial_state).
  solve_ordinary.
Defined.

(** C2, instance: two calls against a slave that never answers. *)
Lemma write_failure_reconnects_witness :
  let r1 := write_temperature silent_slave_env modbus_config 4096
              (VFloat f_21_562) initial_state in
  let s1 := snd r1 in
  let s2 := snd (write_temperature silent_slave_env modbus_config 4097
                   (VFloat f_minus_5) s1) in
  filter is_write_event (emitted initial_state s1) = [EWriteRegister 4096 215 6]
  /\ n_write s1 = S (n_write initial_state)
  /\ (forall e,
         Instrument_write_register silent_slave_env (n_write initial_state)
           4096 215 6 = Some e ->
         fst r1 = Returned false
         /\ instrument s1 = None
         /\ n_connect s2 = S (n_connect s1)
         /\ hd_error (emitted s1 s2)
            = Some (EInstrument (port modbus_config)
                      (slave_address modbus_config)))
  /\ (Instrument_write_register silent_slave_env (n_write initial_state)
        4096 215 6 = None ->
      py_format_f (VFloat f_21_562) = Ok tt ->
      fst r1 = Returned true
      /\ instrument s1 <> None
      /\ n_connect s2 = n_connect s1).
Proof.
  apply (write_failure_reconnects silent_slave_env modbus_config 4096
           (VFloat f_21_562) 215 4097 (VFloat f_minus_5) initial_state).
  - solve_ordinary.
  - right. split; reflexivity.
  - vm_compute. reflexivity.
Defined.

(** C9, counterexample: with a port that opens, the constructor has
    connected: the new writer holds a session and one attempt was made. *)
Lemma writer_connects_at_construction :
  ~ (instrument (snd (ModbusRTUWriter_init accepting_env modbus_config
                        initial_state)) = None
     /\ n_connect (snd (ModbusRTUWriter_init accepting_env modbus_config
                          initial_state)) = 0%nat).
Proof. vm_compute. intros [H _]. discriminate H. Qed.

(** C9, instance: the serial port does not exist. *)
Lemma writer_connection_policy_witness :
  (forall s,
      let r := ModbusRTUWriter_init no_port_env modbus_config s in
      fst r = Returned tt
      /\ n_connect (snd r) = S (n_connect s)
      /\ (instrument (snd r) <> None <->
          Instrument_new no_port_env (n_connect s) = None
          /\ serial_configure no_port_env (n_connect s) = None))
  /\ (forall s addr temperature,
         let s' := snd (write_temperature no_port_env modbus_config addr
                          temperature s) in
         (instrument s <> None -> n_connect s' = n_connect s)
         /\ (instrument s = None -> n_connect s' = S (n_connect s))
         /\ (instrument s = None ->
             Instrument_new no_port_env (n_connect s) <> None
             \/ serial_configure no_port_env (n_connect s) <> None ->
             fst (write_temperature no_port_env modbus_config addr temperature s)
             = Returned false
             /\ instrument s' = None
             /\ n_write s' = n_write s)).
Proof.
  apply (writer_connection_policy no_port_env modbus_config).
  solve_ordinary.
Defined.

(** C10, instance: a slave that never answers. *)
Lemma write_temperature_never_raises_witness :
  exists b,
    fst (write_temperature silent_slave_env modbus_config 4096
           (VFloat f_21_562) initial_state) = Returned b
    /\ (forall e, quantize (VFloat f_21_562) = Err e -> b = false)
    /\ (forall v e, quantize (VFloat f_21_562) = Ok v ->
          Instrument_write_register silent_slave_env (n_write initial_state)
            4096 v 6 = Some e ->
          b = false)
    /\ (~ session_available silent_slave_env initial_state -> b = false).
Proof.
  apply (write_temperature_never_raises silent_slave_env modbus_config 4096
           (VFloat f_21_562) initial_state).
  solve_ordinary.
Defined.

(** C3, the code at the failing input: the file of the first of two probes
    cannot be read; [get_all_temperatures] keeps that probe, mapped to the
    pair [None, None], next to the reading of the second. *)
Theorem failed_probe_kept_in_mapping :
  fst (get_all_temperatures dead_probe_env 1 initial_state)
  = Returned [(probe_a, none_pair); (probe_b, VFloat f_minus_5)].
Proof. vm_compute. reflexivity. Qed.

(** C4, the code at the failing input: on a 200 answer whose
    [current_condition] is an empty array, [get_current_temperature]
    raises [IndexError] to its caller. *)
Theorem empty_condition_raises_IndexError :
  fst (weather_modbus.get_current_temperature empty_condition_env
         (lit "Kurgan") initial_state)
  = Raised IndexError.
Proof. vm_compute. reflexivity. Qed.

(** C5, the code at the failing inputs: with a probe whose file cannot be
    read, the first cycle of the sensor bridge ends [main] through its
    outer handler ([TypeError] from formatting the pair), and with an empty
    [current_condition] the first cycle of the weather bridge ends [main]
    the same way ([IndexError]), whatever the number of cycles allowed. *)
Theorem sampling_failure_stops_main :
  (forall ticks fuel,
      fst (ds18b20_modbus.main dead_probe_env (S ticks) fuel initial_state)
      = Returned (ExitCriticalError TypeError))
  /\ (forall ticks,
         fst (weather_modbus.main empty_condition_env (S ticks) initial_state)
         = Returned (ExitCriticalError IndexError)).
Proof.
  split.
  - intros ticks fuel. destruct fuel; vm_compute; reflexivity.
  - intros ticks. vm_compute. reflexivity.
Qed.

(** C7, the code at the failing input: a probe that never shows the marker
    and whose file cannot be opened any more at the second re-read
    ([K = 2]). [read_temp] sleeps twice, reads three times and returns
    the pair [None, None], which is not [None]: the test
    [temp_c is not None] of the caller holds for it, and
    [get_all_temperatures] keeps the probe in its mapping. And when a
    re-read delivers an empty file, [read_temp] raises [IndexError] at
    [lines[0]]: the loop is left although neither the marker has appeared
    nor a read has failed. *)
Theorem retry_failure_is_not_absent :
  (forall fuel,
      let r := read_temp flaky_probe_env (2 + fuel) probe_a initial_state in
      fst r = Returned (VTuple [VNone; VNone])
      /\ n_sleep (snd r) = 2%nat
      /\ n_open (snd r) = 3%nat)
  /\ is_None (VTuple [VNone; VNone]) = false
  /\ (forall fuel,
         fst (get_all_temperatures flaky_probe_env (2 + fuel) initial_state)
         = Returned [(probe_a, VTuple [VNone; VNone])])
  /\ (forall fuel,
         fst (read_temp emptied_probe_env (1 + fuel) probe_a initial_state)
         = Raised IndexError).
Proof.
  split; [|split; [|split]].
  - intros fuel r. subst r. vm_compute. repeat split.
  - reflexivity.
  - intros fuel. vm_compute. reflexivity.
  - intros fuel. destruct fuel; vm_compute; reflexivity.
Qed.

(** C8, counterexample: the cycle does not write 216 to register 4096. *)
Lemma scenario_one_not_216 :
  ~ (filter is_write_event
       (emitted (connected_state modbus_config initial_state)
          (snd (ds18b20_modbus.cycle two_probes_env modbus_config
                  ds18b20_modbus.sensor_registers 1
                  (connected_state modbus_config initial_state))))
     = [EWriteRegister 4096 216 6; EWriteRegister 4097 (-50) 6]).
Proof. vm_compute. intros H. discriminate H. Qed.

(** C8, as amended. Two probes reading 21.562 and -5.0 degrees, registers
    [{0: 4096, 1: 4097}], a transport that accepts: one cycle hands 215 to
    [write_register] for 4096 and -50 for 4097. *)
Theorem scenario_one_cycle :
  fst (get_all_temperatures two_probes_env 1
         (connected_state modbus_config initial_state))
  = Returned [(probe_a, VFloat f_21_562); (probe_b, VFloat f_minus_5)]
  /\ fst (ds18b20_modbus.cycle two_probes_env modbus_config
            ds18b20_modbus.sensor_registers 1
            (connected_state modbus_config initial_state))
     = Returned tt
  /\ filter is_write_event
       (emitted (connected_state modbus_config initial_state)
          (snd (ds18b20_modbus.cycle two_probes_env modbus_config
                  ds18b20_modbus.sensor_registers 1
                  (connected_state modbus_config initial_state))))
     = [EWriteRegister 4096 215 6; EWriteRegister 4097 (-50) 6].
Proof. vm_compute. repeat split. Qed.

(** C6, instance: the payload [t=-5000]. *)
Lemma read_temp_exact_witness :
  let millidegrees := cond_Zopp true (FloatParse.digits_value (lit "5000")) in
  fst (read_temp two_probes_env 0 probe_b initial_state)
  = Returned (VFloat (Float.div (Float.of_Z_signed true millidegrees)
                        Float.thousand)).
Proof.
  apply (read_temp_exact two_probes_env 0 probe_b initial_state
           (lit "72 01 4b 46 7f ff 0e 10 57 : crc=57 ") nl
           (lit "72 01 4b 46 7f ff 0e 10 57 ") (lit "-") true (lit "5000") nl []).
  - reflexivity.
  - repeat constructor.
  - reflexivity.
  - constructor.
  - repeat constructor.
  - discriminate.
  - repeat constructor.
Defined.

(** X18, instance: two bad-CRC payloads, then the file is gone ([K = 2]). *)
Lemma read_temp_retries_witness :
  let path := device_file probe_a in
  let sK := after_retries 2 path (first_read path initial_state) in
  (forall fuel, (fuel < 2)%nat ->
     fst (read_temp flaky_probe_env fuel probe_a initial_state) = OutOfFuel)
  /\ (forall fuel e, (2 <= fuel)%nat ->
        open_readlines flaky_probe_env (n_open initial_state + 2) path = Err e ->
        read_temp flaky_probe_env fuel probe_a initial_state
        = (Returned none_pair, sK))
  /\ (forall fuel line0 rest, (2 <= fuel)%nat ->
        open_readlines flaky_probe_env (n_open initial_state + 2) path
        = Ok (line0 :: rest) ->
        crc_missing line0 = false ->
        read_temp flaky_probe_env fuel probe_a initial_state
        = lift (parse_temperature (line0 :: rest)) sK)
  /\ n_open sK = (n_open initial_state + 2 + 1)%nat
  /\ n_sleep sK = (n_sleep initial_state + 2)%nat
  /\ trace sK
     = (concat (repeat [EOpen path; ESleep 200] 2)
          ++ EOpen path :: trace initial_state)%list.
Proof.
  apply (read_temp_retries flaky_probe_env probe_a initial_state 2).
  - apply le_S, le_n.
  - eexists. split; [reflexivity|]. apply le_n.
  - intros i Hi. destruct i as [|[|i]].
    + eexists. split; reflexivity.
    + eexists. split; reflexivity.
    + exfalso. apply (Nat.nlt_0_r i). apply Nat.succ_lt_mono, Nat.succ_lt_mono. exact Hi.
  - intros i Hi. reflexivity.
Defined.

(** * Further properties *)

(** ** Discovery and sampling *)

Lemma last_component_slash_free id :
  slash_free id -> existsb (fun d => (code d =? 47)%N) id = false.
Proof.
  induction 1 as [|c id Hc _ IH]; [reflexivity|]. cbn. now rewrite Hc, IH.
Qed.

Lemma last_component_after_slash pre id :
  slash_free id ->
  last_component (pre ++ "/"%char :: id) = id.
Proof.
  intros Hid. induction pre as [|c pre IH].
  - cbn [app last_component]. rewrite (last_component_slash_free id Hid).
    reflexivity.
  - cbn [app last_component].
    assert (H : existsb (fun d => (code d =? 47)%N) (pre ++ "/"%char :: id) = true).
    { rewrite existsb_app. cbn. apply orb_true_r. }
    rewrite H. exact IH.
Qed.

Lemma last_component_base_dir id :
  slash_free id -> last_component (base_dir ++ id) = id.
Proof.
  intros Hid.
  change (base_dir ++ id)%list
    with (lit "/sys/bus/w1/devices" ++ "/"%char :: id)%list.
  apply last_component_after_slash. exact Hid.
Qed.

Lemma folder_names ids :
  Forall slash_free ids ->
  map last_component (map (fun id => (base_dir ++ id)%list) ids) = ids.
Proof.
  induction 1 as [|id ids Hid _ IH]; [reflexivity|].
  cbn [map]. rewrite IH. f_equal. apply last_component_base_dir. exact Hid.
Qed.

(** X1. [find_sensors] gives back, in the order of [glob], the folder name
    of each matched path; for folders under the bus directory these are the
    probe identifiers, and no match gives the empty list. One [glob] call is
    made. *)
Theorem find_sensors_ids env s ids :
  glob_glob env (n_glob s) (base_dir ++ lit "28*")
  = map (fun id => (base_dir ++ id)%list) ids ->
  Forall slash_free ids ->
  fst (find_sensors env s) = Returned ids
  /\ n_glob (snd (find_sensors env s)) = S (n_glob s)
  /\ emitted s (snd (find_sensors env s)) = [EGlob (base_dir ++ lit "28*")].
Proof.
  intros Hglob Hids. unfold find_sensors, bind, gets, modify, ret.
  cbn [fst snd]. rewrite Hglob. repeat split.
  - f_equal. apply folder_names. exact Hids.
  - rewrite (emitted_app s _ [EGlob (base_dir ++ lit "28*")]); reflexivity.
Qed.

Lemma find_sensors_ids_witness :
  fst (find_sensors two_probes_env initial_state) = Returned [probe_a; probe_b]
  /\ n_glob (snd (find_sensors two_probes_env initial_state))
     = S (n_glob initial_state)
  /\ emitted initial_state (snd (find_sensors two_probes_env initial_state))
     = [EGlob (base_dir ++ lit "28*")].
Proof.
  apply (find_sensors_ids two_probes_env initial_state [probe_a; probe_b]).
  - reflexivity.
  - repeat constructor.
Defined.

(** X2. A file that cannot be read, is empty or has a single line makes
    [read_temp] return the pair [None, None] at once: one attempt to open
    the file, no sleep, no retry. *)
Theorem read_temp_unreadable_or_short env fuel sensor_id s :
  match open_readlines env (n_open s) (device_file sensor_id) with
  | Ok lines => (length lines < 2)%nat
  | Err _ => True
  end ->
  read_temp env fuel sensor_id s
  = (Returned none_pair, first_read (device_file sensor_id) s).
Proof.
  intros H. unfold read_temp, read_temp_raw. unfold bind at 1 2 3.
  unfold gets, modify. cbn [fst snd].
  destruct (open_readlines env (n_open s) (device_file sensor_id)) as [lines|e];
    unfold ret at 1; [|reflexivity].
  apply Nat.ltb_lt in H. rewrite H. reflexivity.
Qed.

Lemma read_temp_unreadable_or_short_witness :
  read_temp dead_probe_env 3 probe_a initial_state
  = (Returned none_pair, first_read (device_file probe_a) initial_state).
Proof.
  apply (read_temp_unreadable_or_short dead_probe_env 3 probe_a initial_state).
  exact I.
Defined.

(** X3. With a valid first line and a second line that holds no [t=],
    [read_temp] returns the pair [None, None] after the single read. *)
Theorem read_temp_without_field env fuel sensor_id s body ws0 line1 rest :
  open_readlines env (n_open s) (device_file sensor_id)
  = Ok ((body ++ lit "YES" ++ ws0)%list :: line1 :: rest) ->
  all_space ws0 ->
  find (lit "t=") line1 = -1 ->
  read_temp env fuel sensor_id s
  = (Returned none_pair, first_read (device_file sensor_id) s).
Proof.
  intros Hread Hws0 Hfind.
  rewrite (read_temp_first_read env fuel sensor_id s _ Hread)
    by (cbn; lia).
  rewrite (crc_loop_validated _ _ _ _ _ _ (crc_present body ws0 Hws0)).
  unfold parse_temperature, list_getitem. cbn [nth_error]. rewrite Hfind.
  reflexivity.
Qed.

(** X4. With a valid first line and a second line whose text after the first
    [t=] is not a float literal, [read_temp] raises [ValueError] to its
    caller instead of returning the failure pair. *)
Theorem read_temp_malformed_number env fuel sensor_id s body ws0 pre text rest e :
  open_readlines env (n_open s) (device_file sensor_id)
  = Ok ((body ++ lit "YES" ++ ws0)%list :: (pre ++ lit "t=" ++ text)%list :: rest) ->
  all_space ws0 ->
  find (lit "t=") pre = -1 ->
  FloatParse.float_of_str text = Err e ->
  read_temp env fuel sensor_id s
  = (Raised ValueError, first_read (device_file sensor_id) s).
Proof.
  intros Hread Hws0 Hpre Htext.
  rewrite (read_temp_first_read env fuel sensor_id s _ Hread)
    by (cbn; lia).
  rewrite (crc_loop_validated _ _ _ _ _ _ (crc_present body ws0 Hws0)).
  unfold parse_temperature, list_getitem. cbn [nth_error]. unfold find.
  rewrite (find_from_first pre text 0 Hpre) by lia.
  destruct (0 + Z.of_nat (length pre) =? -1) eqn:E; [apply Z.eqb_eq in E; lia|].
  replace (0 + Z.of_nat (length pre) + 2)
    with (Z.of_nat (length pre) + Z.of_nat (length (lit "t="))) by (cbn; lia).
  rewrite slice_after, Htext.
  rewrite (float_of_str_error text e Htext). reflexivity.
Qed.

Lemma read_temp_without_field_witness :
  read_temp (one_probe_env [crc_line; lit "72 01 4b 46 7f ff 0e 10 57"]) 0
    probe_a initial_state
  = (Returned none_pair, first_read (device_file probe_a) initial_state).
Proof.
  apply (read_temp_without_field
           (one_probe_env [crc_line; lit "72 01 4b 46 7f ff 0e 10 57"]) 0
           probe_a initial_state
           (lit "72 01 4b 46 7f ff 0e 10 57 : crc=57 ") nl
           (lit "72 01 4b 46 7f ff 0e 10 57") []).
  - reflexivity.
  - repeat constructor.
  - reflexivity.
Defined.

Lemma read_temp_malformed_number_witness :
  read_temp (one_probe_env [crc_line; (lit "72 01 " ++ lit "t=" ++ nl)%list]) 0
    probe_a initial_state
  = (Raised ValueError, first_read (device_file probe_a) initial_state).
Proof.
  apply (read_temp_malformed_number
           (one_probe_env [crc_line; (lit "72 01 " ++ lit "t=" ++ nl)%list]) 0
           probe_a initial_state
           (lit "72 01 4b 46 7f ff 0e 10 57 : crc=57 ") nl
           (lit "72 01 ") nl [] ValueError).
  - reflexivity.
  - repeat constructor.
  - reflexivity.
  - reflexivity.
Defined.

Lemma same_writer_refl s : same_writer s s.
Proof. repeat split. Qed.

Lemma same_writer_trans s1 s2 s3 :
  same_writer s1 s2 -> same_writer s2 s3 -> same_writer s1 s3.
Proof.
  intros (A & B & C) (A' & B' & C'). repeat split; congruence.
Qed.

Lemma time_sleep_same_writer env ms s :
  same_writer s (snd (time_sleep env ms s)).
Proof.
  unfold time_sleep, bind, gets, modify. cbn [fst snd].
  destruct (sleep_interrupted env (n_sleep s)); repeat split.
Qed.

Lemma read_temp_raw_same_writer env sensor_id s :
  same_writer s (snd (read_temp_raw env sensor_id s)).
Proof.
  unfold read_temp_raw, bind, gets, modify. cbn [fst snd].
  destruct (open_readlines env (n_open s) (device_file sensor_id)); repeat split.
Qed.

Lemma bind_same_writer {A B} (m : M A) (k : A -> M B) s :
  same_writer s (snd (m s)) ->
  (forall a s1, same_writer s1 (snd (k a s1))) ->
  same_writer s (snd (bind m k s)).
Proof.
  intros Hm Hk. unfold bind. destruct (m s) as [[a|e|] s1]; cbn [snd] in *;
    try assumption.
  eapply same_writer_trans; [exact Hm|apply Hk].
Qed.

Lemma crc_loop_same_writer env sensor_id fuel : forall lines s,
  same_writer s (snd (crc_loop env fuel sensor_id lines s)).
Proof.
  induction fuel as [|fuel IH]; intros lines s; cbn [crc_loop];
    apply bind_same_writer;
    try (unfold lift; destruct (list_getitem lines 0); apply same_writer_refl);
    intros line0 s1; destruct (crc_missing line0); try apply same_writer_refl.
  apply bind_same_writer; [apply time_sleep_same_writer|]. intros _ s2.
  apply bind_same_writer; [apply read_temp_raw_same_writer|]. intros r s3.
  destruct r; [apply IH|apply same_writer_refl].
Qed.

Lemma read_temp_same_writer env fuel sensor_id s :
  same_writer s (snd (read_temp env fuel sensor_id s)).
Proof.
  unfold read_temp. apply bind_same_writer; [apply read_temp_raw_same_writer|].
  intros r s1. destruct r as [lines|]; [|apply same_writer_refl].
  destruct (length lines <? 2)%nat; [apply same_writer_refl|].
  apply bind_same_writer; [apply crc_loop_same_writer|].
  intros v s2. destruct v; [|apply same_writer_refl].
  unfold lift. destruct (parse_temperature l); apply same_writer_refl.
Qed.

Lemma collect_same_writer env fuel sensors : forall results s,
  same_writer s (snd (collect_temperatures env fuel sensors results s)).
Proof.
  induction sensors as [|id sensors IH]; intros results s;
    cbn [collect_temperatures]; [apply same_writer_refl|].
  apply bind_same_writer; [apply read_temp_same_writer|].
  intros v s1. apply IH.
Qed.

Lemma get_all_temperatures_same_writer env fuel s :
  same_writer s (snd (get_all_temperatures env fuel s)).
Proof.
  unfold get_all_temperatures. apply bind_same_writer.
  - unfold find_sensors, bind, gets, modify, ret. repeat split.
  - intros sensors s1. apply collect_same_writer.
Qed.

(** X5. Sampling never touches the Modbus side: whatever the probes answer
    and however [get_all_temperatures] ends (a mapping, an exception, still
    in the retry loop), the writer's session and the numbers of connection
    attempts and of register writes are what they were. *)
Theorem sampling_leaves_writer_alone env fuel s :
  let s' := snd (get_all_temperatures env fuel s) in
  instrument s' = instrument s
  /\ n_write s' = n_write s
  /\ n_connect s' = n_connect s.
Proof. exact (get_all_temperatures_same_writer env fuel s). Qed.

Lemma str_eqb_eq a b : str_eqb a b = true <-> a = b.
Proof.
  revert b. induction a as [|x a IH]; intros [|y b]; cbn; split; intros H;
    try reflexivity; try discriminate.
  - apply andb_true_iff in H as [Hx Ha]. apply Ascii.eqb_eq in Hx.
    apply IH in Ha. congruence.
  - inversion H; subst. rewrite Ascii.eqb_refl. cbn. now apply IH.
Qed.

Lemma dict_set_new {V} (d : list (str * V)) k v :
  ~ In k (map fst d) -> dict_set str_eqb d k v = (d ++ [(k, v)])%list.
Proof.
  induction d as [|[k' v'] d IH]; cbn; intros Hk; [reflexivity|].
  destruct (str_eqb k' k) eqn:E.
  - apply str_eqb_eq in E. elim Hk. now left.
  - rewrite IH; [reflexivity|]. intros Hin. apply Hk. now right.
Qed.

Lemma collect_keeps_every_probe env fuel sensors : forall results s results' s',
  collect_temperatures env fuel sensors results s = (Returned results', s') ->
  NoDup (map fst results ++ sensors) ->
  Forall (fun kv => is_None (snd kv) = false) results ->
  map fst results' = (map fst results ++ sensors)%list
  /\ Forall (fun kv => is_None (snd kv) = false) results'.
Proof.
  induction sensors as [|id sensors IH]; intros results s results' s' Hrun Hnd Hval.
  - cbn in Hrun. inversion Hrun; subst. now rewrite app_nil_r.
  - cbn [collect_temperatures] in Hrun. unfold bind in Hrun.
    destruct (read_temp env fuel id s) as [[v|e|] s1] eqn:Hread;
      try discriminate.
    assert (Hv : is_None v = false).
    { apply (read_temp_never_None env fuel id s). now rewrite Hread. }
    rewrite Hv in Hrun.
    assert (Hnew : ~ In id (map fst results)).
    { apply NoDup_remove_2 in Hnd. intros Hin. apply Hnd.
      apply in_or_app. now left. }
    rewrite (dict_set_new results id v Hnew) in Hrun.
    apply IH in Hrun.
    + destruct Hrun as [Hk Hf]. split; [|assumption].
      rewrite Hk, map_app, <- app_assoc. reflexivity.
    + rewrite map_app, <- app_assoc. exact Hnd.
    + apply Forall_app. split; [assumption|]. repeat constructor. exact Hv.
Qed.

(** X6. When [get_all_temperatures] returns, its mapping has one entry for
    every probe that the call's own discovery found, in discovery order,
    whether the probe could be read or not, and no entry holds [None] (an
    unreadable probe is mapped to the pair [None, None]). *)
Theorem get_all_temperatures_keys env fuel s results :
  fst (get_all_temperatures env fuel s) = Returned results ->
  NoDup (map last_component (glob_glob env (n_glob s) (base_dir ++ lit "28*"))) ->
  map fst results
  = map last_component (glob_glob env (n_glob s) (base_dir ++ lit "28*"))
  /\ Forall (fun kv => is_None (snd kv) = false) results.
Proof.
  intros Hrun Hnd. unfold get_all_temperatures, find_sensors in Hrun.
  unfold bind at 1 2 3 in Hrun. unfold gets, modify, ret in Hrun.
  cbn [fst snd] in Hrun.
  set (sensors := map last_component
                    (glob_glob env (n_glob s) (base_dir ++ lit "28*"))) in *.
  set (s1 := emit (EGlob (base_dir ++ lit "28*")) (bump_glob s)) in *.
  destruct (collect_temperatures env fuel sensors [] s1) as [o s'] eqn:Hc.
  cbn [fst] in Hrun. subst o.
  apply (collect_keeps_every_probe env fuel sensors [] s1 results s' Hc).
  - exact Hnd.
  - constructor.
Qed.

Lemma get_all_temperatures_keys_witness :
  map fst [(probe_a, none_pair); (probe_b, VFloat f_minus_5)]
  = map last_component
      (glob_glob dead_probe_env (n_glob initial_state) (base_dir ++ lit "28*"))
  /\ Forall (fun kv => is_None (snd kv) = false)
       [(probe_a, none_pair); (probe_b, VFloat f_minus_5)].
Proof.
  apply (get_all_temperatures_keys dead_probe_env 1 initial_state
           [(probe_a, none_pair); (probe_b, VFloat f_minus_5)]).
  - vm_compute. reflexivity.
  - vm_compute. repeat constructor; cbn; intros H;
      repeat (destruct H as [H|H]; [discriminate H|]); exact H.
Defined.

(** ** Quantization of the values the two sources produce *)

Lemma all_from_spec p n : forall lo,
  all_from p lo n = true ->
  forall z, lo <= z < lo + Z.of_nat n -> p z = true.
Proof.
  induction n as [|n IH]; intros lo H z Hz; [lia|].
  cbn [all_from] in H. apply andb_true_iff in H as [H0 Hr].
  destruct (Z.eq_dec z lo) as [->|Hne]; [assumption|].
  apply (IH (lo + 1) Hr). lia.
Qed.

Lemma of_Z_signed_nonzero neg m :
  m <> 0 -> Float.of_Z_signed neg m = Float.of_Z_signed (m <? 0) m.
Proof. destruct m; [contradiction| |]; reflexivity. Qed.

Lemma sixteenths_checked :
  all_from sixteenths_ok (-880) (Z.to_nat 2881) = true.
Proof. vm_compute. reflexivity. Qed.

Lemma millidegrees_quantize neg m r :
  -880 <= r <= 2000 -> m = Z.quot (r * 1000) 16 ->
  quantize (VFloat (Float.div (Float.of_Z_signed neg m) Float.thousand))
  = Ok (Z.quot m 100).
Proof.
  intros Hr Hm. destruct (Z.eq_dec m 0) as [Hz|Hne].
  - rewrite Hz. destruct neg; vm_compute; reflexivity.
  - rewrite (of_Z_signed_nonzero neg m Hne).
    pose proof (all_from_spec sixteenths_ok _ _ sixteenths_checked r) as H.
    rewrite Z2Nat.id in H by lia. specialize (H ltac:(lia)).
    unfold sixteenths_ok, millidegrees_ok in H. rewrite <- Hm in H.
    destruct (quantize _) as [v|e]; [|discriminate].
    apply Z.eqb_eq in H. now subst v.
Qed.

Lemma whole_degrees_checked :
  all_from whole_degrees_ok (-3276) (Z.to_nat 6553) = true.
Proof. vm_compute. reflexivity. Qed.

Lemma whole_degrees_quantize neg n :
  -3276 <= n <= 3276 ->
  quantize (VFloat (Float.of_Z_signed neg n)) = Ok (10 * n).
Proof.
  intros Hn. destruct (Z.eq_dec n 0) as [->|Hne].
  - destruct neg; vm_compute; reflexivity.
  - rewrite (of_Z_signed_nonzero neg n Hne).
    replace (Float.of_Z_signed (n <? 0) n) with (Float.of_Z n)
      by (destruct n; reflexivity).
    pose proof (all_from_spec whole_degrees_ok _ _ whole_degrees_checked n) as H.
    rewrite Z2Nat.id in H by lia. specialize (H ltac:(lia)).
    unfold whole_degrees_ok in H.
    destruct (quantize _) as [v|e]; [|discriminate].
    apply Z.eqb_eq in H. now subst v.
Qed.

(** X7. Sensor path, reading to register value: for a valid payload whose
    [t=] field is a reading [m] of the DS18B20 (a number [r] of sixteenths
    of a degree from -55 to 125 degrees, printed as [r * 1000 / 16]
    millidegrees), the value [read_temp] returns is quantized by
    [int(temperature * 10)] to [m] divided by 100 toward zero: tenths of a
    degree, never one off through float rounding. *)
Theorem probe_reading_register env fuel sensor_id s body ws0 pre sgn neg ds ws rest r :
  open_readlines env (n_open s) (device_file sensor_id)
  = Ok ((body ++ lit "YES" ++ ws0)
          :: (pre ++ lit "t=" ++ sgn ++ ds ++ ws) :: rest)%list ->
  all_space ws0 ->
  find (lit "t=") pre = -1 ->
  sign_prefix sgn neg -> all_digits ds -> ds <> [] -> float_space ws ->
  -880 <= r <= 2000 ->
  cond_Zopp neg (FloatParse.digits_value ds) = Z.quot (r * 1000) 16 ->
  exists v,
    fst (read_temp env fuel sensor_id s) = Returned v
    /\ quantize v
       = Ok (Z.quot (cond_Zopp neg (FloatParse.digits_value ds)) 100).
Proof.
  intros Hread Hws0 Hpre Hs Hd Hne Hws Hr Hm.
  rewrite (read_temp_first_read env fuel sensor_id s _ Hread) by (cbn; lia).
  rewrite (crc_loop_validated _ _ _ _ _ _ (crc_present body ws0 Hws0)).
  rewrite (parse_temperature_integer _ pre sgn neg ds ws rest Hpre Hs Hd Hne Hws).
  eexists. split; [reflexivity|].
  apply (millidegrees_quantize neg _ r Hr Hm).
Qed.

Lemma probe_reading_register_witness :
  exists v,
    fst (read_temp two_probes_env 0 probe_a initial_state) = Returned v
    /\ quantize v
       = Ok (Z.quot (cond_Zopp false (FloatParse.digits_value (lit "21562"))) 100).
Proof.
  apply (probe_reading_register two_probes_env 0 probe_a initial_state
           (lit "72 01 4b 46 7f ff 0e 10 57 : crc=57 ") nl
           (lit "72 01 4b 46 7f ff 0e 10 57 ") [] false (lit "21562") nl [] 345).
  - reflexivity.
  - repeat constructor.
  - reflexivity.
  - constructor.
  - repeat constructor.
  - discriminate.
  - repeat constructor.
  - split; discriminate.
  - reflexivity.
Defined.

(** ** The writer *)

Lemma connect_well_formed env cfg s :
  transport_errors_ordinary env ->
  session_well_formed cfg (snd (connect env cfg s)).
Proof.
  intros Hord.
  destruct (Instrument_new env (n_connect s)) as [e|] eqn:En;
    [|destruct (serial_configure env (n_connect s)) as [e|] eqn:Ec].
  3:{ rewrite (connect_ok env cfg s En Ec). right. reflexivity. }
  all: destruct (connect_fail env cfg s Hord) as (e' & new & Heq & _);
    [ rewrite ?En, ?Ec; (left; discriminate) || (right; discriminate) | ].
  all: rewrite Heq; left; reflexivity.
Qed.

Lemma write_connected_well_formed env cfg addr temperature s :
  session_well_formed cfg s ->
  session_well_formed cfg (snd (write_connected env addr temperature s)).
Proof.
  intros Hwf. unfold write_connected.
  destruct (quantize temperature) as [v|e]; [|left; reflexivity].
  destruct (Instrument_write_register env (n_write s) addr v 6) as [e|].
  - destruct (is_Exception e); [left; reflexivity|exact Hwf].
  - destruct (py_format_f temperature); [exact Hwf|left; reflexivity].
Qed.

(** X8. The writer never holds a half-built session. With a serial library
    that raises ordinary errors, the constructor leaves either no
    instrument or one that carries the port, the slave address,
    [close_port_after_each_call] and all five serial parameters of the
    configuration, and every [write_temperature] call keeps it so. *)
Theorem writer_session_well_formed env cfg :
  transport_errors_ordinary env ->
  (forall s, session_well_formed cfg (snd (ModbusRTUWriter_init env cfg s)))
  /\ (forall s addr temperature,
         session_well_formed cfg s ->
         session_well_formed cfg
           (snd (write_temperature env cfg addr temperature s))).
Proof.
  intros Hord. split.
  - intros s. unfold ModbusRTUWriter_init, bind, modify.
    pose proof (connect_well_formed env cfg (with_instrument None s) Hord) as H.
    destruct (connect env cfg (with_instrument None s)) as [[u|e|] s1];
      exact H.
  - intros s addr temperature Hwf.
    destruct (instrument s) as [i|] eqn:Hi.
    + rewrite (write_temperature_connected env cfg addr temperature s i Hi).
      apply write_connected_well_formed. exact Hwf.
    + rewrite (write_temperature_disconnected env cfg addr temperature s Hi).
      pose proof (connect_well_formed env cfg s Hord) as H.
      destruct (connect env cfg s) as [[u|e|] s1]; cbn [snd] in *; try exact H.
      destruct (instrument s1) as [i1|] eqn:Hi1; [|exact H].
      apply write_connected_well_formed. exact H.
Qed.

Lemma writer_session_well_formed_witness :
  (forall s,
      session_well_formed modbus_config
        (snd (ModbusRTUWriter_init silent_slave_env modbus_config s)))
  /\ (forall s addr temperature,
         session_well_formed modbus_config s ->
         session_well_formed modbus_config
           (snd (write_temperature silent_slave_env modbus_config addr
                   temperature s))).
Proof.
  apply (writer_session_well_formed silent_slave_env modbus_config).
  solve_ordinary.
Defined.

Lemma quantize_unconvertible temperature :
  temperature = VNone
  \/ (exists l, temperature = VTuple l)
  \/ (exists f, temperature = VFloat f
                /\ Float.is_finite (Float.mul f Float.ten) = false) ->
  exists e, quantize temperature = Err e.
Proof.
  intros [->|[(l & ->)|(f & -> & Hf)]]; cbn.
  - eexists; reflexivity.
  - eexists; reflexivity.
  - unfold Float.to_int. destruct (Float.mul f Float.ten); cbn in Hf;
      try discriminate; eexists; reflexivity.
Qed.

(** X9. A value that does not convert costs the session. When the writer
    is connected and the temperature is [None], a tuple, or a float whose
    tenfold is NaN or infinite, [write_temperature] returns [False]
    without calling the serial library, logs the error and drops the
    instrument, so that the next call has to reconnect. *)
Theorem unconvertible_value_drops_session env cfg addr temperature s i :
  instrument s = Some i ->
  temperature = VNone
  \/ (exists l, temperature = VTuple l)
  \/ (exists f, temperature = VFloat f
                /\ Float.is_finite (Float.mul f Float.ten) = false) ->
  exists e,
    write_temperature env cfg addr temperature s
    = (Returned false,
       with_instrument None (emit (ELogError (MsgModbusWriteError e)) s)).
Proof.
  intros Hi Hbad. destruct (quantize_unconvertible temperature Hbad) as (e & He).
  exists e. rewrite (write_temperature_connected env cfg addr temperature s i Hi).
  unfold write_connected. rewrite He. reflexivity.
Qed.

Lemma unconvertible_value_drops_session_witness :
  exists e,
    write_temperature accepting_env modbus_config 4096 none_pair
      (connected_state modbus_config initial_state)
    = (Returned false,
       with_instrument None
         (emit (ELogError (MsgModbusWriteError e))
            (connected_state modbus_config initial_state))).
Proof.
  apply (unconvertible_value_drops_session accepting_env modbus_config 4096
           none_pair (connected_state modbus_config initial_state)
           (configured_instrument modbus_config)).
  - reflexivity.
  - right. left. exists [VNone; VNone]. reflexivity.
Defined.

(** ** The weather source *)

Lemma failed_fetch_returns_None env city s :
  fetch_fails (requests_get env (n_get s) (weather_url city)) ->
  exists msg,
    weather_modbus.get_current_temperature env city s
    = (Returned VNone,
       emit (ELogError msg) (emit (EGet (weather_url city) 10) (bump_get s))).
Proof.
  intros Hf. unfold weather_modbus.get_current_temperature, try_except2,
    weather_modbus.raise_for_status, weather_modbus.response_json,
    bind, gets, modify, lift, ret, raise, log_info, log_error.
  cbn [fst snd]. fold (weather_url city).
  destruct (requests_get env (n_get s) (weather_url city)) as [resp|e];
    cbn [fetch_fails] in Hf.
  - destruct ((400 <=? status_code resp) && (status_code resp <? 600)) eqn:Est.
    + eexists. reflexivity.
    + destruct Hf as [Hf|Hf]; [discriminate|]. rewrite Hf.
      eexists. reflexivity.
  - rewrite Hf. eexists. reflexivity.
Qed.

(** X11. A failed fetch costs nothing on the Modbus side. When the request
    raises one of the exceptions of [requests], or answers with a 4xx/5xx
    status, or with a body that does not decode, the cycle of the weather
    bridge logs the error, prints the failure line and sleeps 300 s: it
    neither connects nor writes a register, and it returns normally. *)
Theorem failed_fetch_writes_nothing env cfg city s :
  fetch_fails (requests_get env (n_get s) (weather_url city)) ->
  sleep_interrupted env (n_sleep s) = false ->
  exists msg,
    weather_modbus.cycle env cfg city s
    = (Returned tt,
       emit (ESleep 300000)
         (bump_sleep
            (emit (EPrint MsgWeatherFailed)
               (emit (ELogError msg)
                  (emit (EGet (weather_url city) 10) (bump_get s)))))).
Proof.
  intros Hf Hs. destruct (failed_fetch_returns_None env city s Hf) as (msg & Hg).
  exists msg. unfold weather_modbus.cycle, bind, print, modify, time_sleep, gets.
  rewrite Hg. cbn -[weather_url]. rewrite Hs. reflexivity.
Qed.

Lemma failed_fetch_writes_nothing_witness :
  exists msg,
    weather_modbus.cycle accepting_env modbus_config (lit "Kurgan") initial_state
    = (Returned tt,
       emit (ESleep 300000)
         (bump_sleep
            (emit (EPrint MsgWeatherFailed)
               (emit (ELogError msg)
                  (emit (EGet (weather_url (lit "Kurgan")) 10)
                     (bump_get initial_state)))))).
Proof.
  apply (failed_fetch_writes_nothing accepting_env modbus_config (lit "Kurgan")
           initial_state).
  - reflexivity.
  - reflexivity.
Defined.

Lemma fetch_integer_literal env city s resp fields item more sgn neg ds ws :
  requests_get env (n_get s) (weather_url city) = Ok resp ->
  (400 <=? status_code resp) && (status_code resp <? 600) = false ->
  json_body resp = Ok (JObj fields) ->
  dict_get str_eqb fields (lit "current_condition")
  = Ok (JArr (JObj item :: more)) ->
  dict_get str_eqb item (lit "temp_C") = Ok (JStr (sgn ++ ds ++ ws)) ->
  sign_prefix sgn neg -> all_digits ds -> ds <> [] -> float_space ws ->
  weather_modbus.get_current_temperature env city s
  = (Returned
       (VFloat (Float.of_Z_signed neg
                  (cond_Zopp neg (FloatParse.digits_value ds)))),
     emit (ELogInfo
             (MsgWeatherReceived
                (Float.of_Z_signed neg
                   (cond_Zopp neg (FloatParse.digits_value ds)))))
       (emit (EGet (weather_url city) 10) (bump_get s))).
Proof.
  intros Hget Hst Hbody Hcc Htemp Hs Hd Hne Hws.
  unfold weather_modbus.get_current_temperature, try_except2,
    weather_modbus.raise_for_status, weather_modbus.response_json,
    bind, gets, modify, lift, ret, raise, log_info, log_error.
  cbn [fst snd]. fold (weather_url city). rewrite Hget. cbv beta iota.
  rewrite Hst. cbv beta iota. rewrite Hbody. cbv beta iota.
  unfold json_getitem_str at 1. rewrite Hcc. cbv beta iota.
  unfold json_getitem_0. cbv beta iota.
  unfold json_getitem_str. rewrite Htemp. cbv beta iota.
  unfold json_float.
  rewrite (float_of_integer_literal sgn neg ds ws Hs Hd Hne Hws).
  reflexivity.
Qed.

(** X12. Weather path, answer to register value: for a 2xx/3xx answer whose
    [current_condition[0].temp_C] is the string of an integer [n],
    [get_current_temperature] makes one GET of
    [https://wttr.in/<city>?format=j1] with a timeout of 10 s and returns
    the float of [n]; for [-3276 <= n <= 3276] that value is quantized by
    [int(temperature * 10)] to exactly [10 * n]. *)
Theorem weather_reading_register env city s resp fields item more sgn neg ds ws :
  requests_get env (n_get s) (weather_url city) = Ok resp ->
  (400 <=? status_code resp) && (status_code resp <? 600) = false ->
  json_body resp = Ok (JObj fields) ->
  dict_get str_eqb fields (lit "current_condition")
  = Ok (JArr (JObj item :: more)) ->
  dict_get str_eqb item (lit "temp_C") = Ok (JStr (sgn ++ ds ++ ws)) ->
  sign_prefix sgn neg -> all_digits ds -> ds <> [] -> float_space ws ->
  let n := cond_Zopp neg (FloatParse.digits_value ds) in
  fst (weather_modbus.get_current_temperature env city s)
  = Returned (VFloat (Float.of_Z_signed neg n))
  /\ emitted s (snd (weather_modbus.get_current_temperature env city s))
     = [EGet (lit "https://wttr.in/" ++ city ++ lit "?format=j1") 10;
        ELogInfo (MsgWeatherReceived (Float.of_Z_signed neg n))]
  /\ (-3276 <= n <= 3276 ->
      quantize (VFloat (Float.of_Z_signed neg n)) = Ok (10 * n)).
Proof.
  intros Hget Hst Hbody Hcc Htemp Hs Hd Hne Hws n.
  rewrite (fetch_integer_literal env city s resp fields item more sgn neg ds ws
             Hget Hst Hbody Hcc Htemp Hs Hd Hne Hws).
  cbn [fst snd]. fold n. repeat split.
  - rewrite (emitted_app s _
               [ELogInfo (MsgWeatherReceived (Float.of_Z_signed neg n));
                EGet (weather_url city) 10]); reflexivity.
  - apply whole_degrees_quantize.
Qed.

Lemma weather_reading_register_witness :
  let n := cond_Zopp false (FloatParse.digits_value (lit "13")) in
  fst (weather_modbus.get_current_temperature thirteen_degrees_env
         (lit "Kurgan") initial_state)
  = Returned (VFloat (Float.of_Z_signed false n))
  /\ emitted initial_state
       (snd (weather_modbus.get_current_temperature thirteen_degrees_env
               (lit "Kurgan") initial_state))
     = [EGet (lit "https://wttr.in/" ++ lit "Kurgan" ++ lit "?format=j1") 10;
        ELogInfo (MsgWeatherReceived (Float.of_Z_signed false n))]
  /\ (-3276 <= n <= 3276 ->
      quantize (VFloat (Float.of_Z_signed false n)) = Ok (10 * n)).
Proof.
  apply (weather_reading_register thirteen_degrees_env (lit "Kurgan")
           initial_state
           {| status_code := 200;
              json_body :=
                Ok (JObj [(lit "current_condition",
                           JArr [JObj [(lit "temp_C", JStr (lit "13"))]])]) |}
           [(lit "current_condition",
             JArr [JObj [(lit "temp_C", JStr (lit "13"))]])]
           [(lit "temp_C", JStr (lit "13"))] [] [] false (lit "13") []).
  - reflexivity.
  - reflexivity.
  - reflexivity.
  - reflexivity.
  - reflexivity.
  - constructor.
  - repeat constructor.
  - discriminate.
  - constructor.
Defined.

(** ** The polling loops *)

Lemma connect_returns env cfg s :
  transport_errors_ordinary env ->
  fst (connect env cfg s) = Returned tt
  /\ n_glob (snd (connect env cfg s)) = n_glob s
  /\ n_open (snd (connect env cfg s)) = n_open s
  /\ n_sleep (snd (connect env cfg s)) = n_sleep s
  /\ n_write (snd (connect env cfg s)) = n_write s
  /\ n_connect (snd (connect env cfg s)) = S (n_connect s).
Proof.
  intros (Hn & Hc & _).
  unfold connect, try_except, bind, gets, modify, log_info, log_error, raise.
  cbn [fst snd].
  destruct (Instrument_new env (n_connect s)) as [e|] eqn:En; cbn.
  - rewrite (Hn _ _ En). cbn. repeat split.
  - destruct (serial_configure env (n_connect s)) as [e|] eqn:Ec; cbn.
    + rewrite (Hc _ _ Ec). cbn. repeat split.
    + repeat split.
Qed.

Lemma main_without_sensors_run env ticks fuel s :
  transport_errors_ordinary env ->
  glob_glob env (n_glob s) (base_dir ++ lit "28*") = [] ->
  exists s1,
    n_open s1 = n_open s /\ n_sleep s1 = n_sleep s
    /\ n_write s1 = n_write s /\ n_connect s1 = S (n_connect s)
    /\ ds18b20_modbus.main env ticks fuel s
       = (Returned ExitNoSensors,
          emit (EPrint MsgNoSensors)
            (emit (EGlob (base_dir ++ lit "28*"))
               (bump_glob (emit (EPrint MsgBanner) s1)))).
Proof.
  intros Hord Hglob.
  unfold ds18b20_modbus.main, DS18B20_init, ModbusRTUWriter_init.
  unfold bind at 1 2 3 4 5. unfold modify at 1 2 3. cbn [fst snd].
  set (s0 := with_instrument None _).
  destruct (connect_returns env modbus_config s0 Hord)
    as (Hr & Hg & Ho & Hs & Hw & Hc).
  destruct (connect env modbus_config s0) as [o s1]. cbn [fst snd] in *.
  subst o s0.
  cbn [n_glob n_open n_sleep n_write n_connect with_instrument emit]
    in Hg, Ho, Hs, Hw, Hc.
  exists s1. repeat split; try assumption.
  unfold bind at 1. unfold print at 1. unfold modify at 1.
  unfold bind at 1. unfold find_sensors, bind, gets, modify, ret, print.
  cbn [fst snd n_glob emit]. rewrite Hg, Hglob. reflexivity.
Qed.

(** X13. When discovery finds no probe at start-up, [main] of the sensor
    bridge returns at once: it has made its one connection attempt, but it
    opens no sensor file, writes no register and never sleeps or enters
    the loop. *)
Theorem main_without_sensors env ticks fuel s :
  transport_errors_ordinary env ->
  glob_glob env (n_glob s) (base_dir ++ lit "28*") = [] ->
  let r := ds18b20_modbus.main env ticks fuel s in
  fst r = Returned ExitNoSensors
  /\ n_open (snd r) = n_open s
  /\ n_sleep (snd r) = n_sleep s
  /\ n_write (snd r) = n_write s
  /\ n_connect (snd r) = S (n_connect s).
Proof.
  intros Hord Hglob r. subst r.
  destruct (main_without_sensors_run env ticks fuel s Hord Hglob)
    as (s1 & Ho & Hs & Hw & Hc & ->).
  cbn. repeat split; assumption.
Qed.

Lemma main_without_sensors_witness :
  let r := ds18b20_modbus.main accepting_env 10 10 initial_state in
  fst r = Returned ExitNoSensors
  /\ n_open (snd r) = n_open initial_state
  /\ n_sleep (snd r) = n_sleep initial_state
  /\ n_write (snd r) = n_write initial_state
  /\ n_connect (snd r) = S (n_connect initial_state).
Proof.
  apply (main_without_sensors accepting_env 10 10 initial_state).
  - solve_ordinary.
  - reflexivity.
Defined.

Lemma bind_writes_le {A B} (m : M A) (k : A -> M B) s a b :
  (n_write (snd (m s)) <= n_write s + a)%nat ->
  (forall x s1, (n_write (snd (k x s1)) <= n_write s1 + b)%nat) ->
  (n_write (snd (bind m k s)) <= n_write s + a + b)%nat.
Proof.
  intros Hm Hk. unfold bind.
  destruct (m s) as [[x|e|] s1]; cbn [snd] in *; try lia.
  specialize (Hk x s1). lia.
Qed.

Lemma write_temperature_writes_le env cfg addr temperature s :
  transport_errors_ordinary env ->
  (n_write (snd (write_temperature env cfg addr temperature s))
   <= n_write s + 1)%nat.
Proof.
  intros Hord.
  destruct (write_temperature_outcome env cfg addr temperature s Hord)
    as (b & s1 & -> & [_ _ Hw _]). cbn [snd].
  destruct Hw as [(_ & Hn & _)|(v & _ & Hn & _)]; lia.
Qed.

Lemma lift_state {A} (r : PyRes A) s : snd (lift r s) = s.
Proof. destruct r; reflexivity. Qed.

Lemma cycle_unfold env cfg registers fuel :
  ds18b20_modbus.cycle env cfg registers fuel
  = (temperatures <- get_all_temperatures env fuel ;;
     print MsgTime ;;
     for_each 0 temperatures (cycle_item env cfg registers) ;;
     time_sleep env 5000).
Proof. reflexivity. Qed.

Lemma cycle_item_writes_le env cfg registers i item s :
  transport_errors_ordinary env ->
  (n_write (snd (cycle_item env cfg registers i item s))
   <= n_write s + (if (i <? Z.of_nat (length registers))%Z then 1 else 0))%nat.
Proof.
  intros Hord. unfold cycle_item. destruct item as [sensor_id temp_c].
  destruct (i <? Z.of_nat (length registers))%Z.
  - replace (n_write s + 1)%nat with (n_write s + 0 + 1)%nat by lia.
    apply bind_writes_le; [rewrite lift_state; lia|]. intros register s1.
    replace (n_write s1 + 1)%nat with (n_write s1 + 1 + 0)%nat by lia.
    apply bind_writes_le; [apply write_temperature_writes_le, Hord|].
    intros success s2.
    replace (n_write s2 + 0)%nat with (n_write s2 + 0 + 0)%nat by lia.
    apply bind_writes_le; [rewrite lift_state; lia|]. intros _ s3.
    cbn. lia.
  - replace (n_write s + 0)%nat with (n_write s + 0 + 0)%nat by lia.
    apply bind_writes_le; [rewrite lift_state; lia|]. intros _ s3.
    cbn. lia.
Qed.

Lemma for_each_writes_le env cfg registers :
  transport_errors_ordinary env ->
  forall (temperatures : list (str * PyVal)) i s,
  0 <= i ->
  (n_write (snd (for_each i temperatures (cycle_item env cfg registers) s))
   <= n_write s + Z.to_nat (Z.of_nat (length registers) - i)%Z)%nat
  /\ (n_write (snd (for_each i temperatures (cycle_item env cfg registers) s))
      <= n_write s + length temperatures)%nat.
Proof.
  intros Hord temperatures.
  induction temperatures as [|item rest IH]; intros i s Hi.
  - cbn. lia.
  - cbn [for_each length]. unfold bind.
    pose proof (cycle_item_writes_le env cfg registers i item s Hord) as Hitem.
    destruct (cycle_item env cfg registers i item s) as [[u|e|] s1];
      cbn [snd] in *.
    + destruct (IH (i + 1) s1 ltac:(lia)) as [IH1 IH2].
      destruct (Z.ltb_spec i (Z.of_nat (length registers))); lia.
    + destruct (Z.ltb_spec i (Z.of_nat (length registers))); lia.
    + destruct (Z.ltb_spec i (Z.of_nat (length registers))); lia.
Qed.

(** X15. One cycle of the sensor bridge calls [write_register] at most as
    many times as the register map has entries, however many probes are
    sampled and whatever the probes and the slave answer: probes beyond
    the map are never written and no write is repeated within the cycle. *)
Theorem cycle_writes_bounded env cfg registers fuel s :
  transport_errors_ordinary env ->
  (n_write (snd (ds18b20_modbus.cycle env cfg registers fuel s))
   <= n_write s + length registers)%nat.
Proof.
  intros Hord. rewrite cycle_unfold.
  replace (n_write s + length registers)%nat
    with (n_write s + 0 + length registers)%nat by lia.
  apply bind_writes_le.
  - destruct (get_all_temperatures_same_writer env fuel s) as (_ & Hw & _). lia.
  - intros temperatures s1.
    replace (n_write s1 + length registers)%nat
      with (n_write s1 + 0 + length registers)%nat by lia.
    apply bind_writes_le; [cbn; lia|]. intros _ s2.
    replace (n_write s2 + length registers)%nat
      with (n_write s2 + length registers + 0)%nat by lia.
    apply bind_writes_le.
    + destruct (for_each_writes_le env cfg registers Hord temperatures 0 s2)
        as [H _]; [lia|]. rewrite Z.sub_0_r, Nat2Z.id in H. exact H.
    + intros _ s3.
      destruct (time_sleep_same_writer env 5000 s3) as (_ & Hw & _). lia.
Qed.

Lemma cycle_writes_bounded_witness :
  (n_write (snd (ds18b20_modbus.cycle two_probes_env modbus_config
                   [(0, 4096)%Z] 1 initial_state))
   <= n_write initial_state + length [(0, 4096)%Z])%nat.
Proof.
  apply (cycle_writes_bounded two_probes_env modbus_config [(0, 4096)] 1
           initial_state).
  solve_ordinary.
Defined.

Lemma write_temperature_extends env cfg addr temperature s :
  transport_errors_ordinary env ->
  exists new,
    trace (snd (write_temperature env cfg addr temperature s))
    = (new ++ trace s)%list.
Proof.
  intros Hord. pose proof Hord as (_ & _ & Hw).
  destruct (instrument s) as [i|] eqn:Hi.
  - rewrite (write_temperature_connected env cfg addr temperature s i Hi).
    destruct (write_connected_outcome env addr temperature s Hw)
      as (b & s1 & evs & -> & _ & Ht & _). exists evs. exact Ht.
  - rewrite (write_temperature_disconnected env cfg addr temperature s Hi).
    destruct (connect_outcome env cfg s Hord)
      as (s0 & pre & -> & _ & _ & Ht0 & _).
    destruct (instrument s0) as [i0|].
    + destruct (write_connected_outcome env addr temperature s0 Hw)
        as (b & s1 & evs & -> & _ & Ht & _).
      exists (evs ++ pre ++ [EInstrument (port cfg) (slave_address cfg)])%list.
      cbn [snd]. rewrite Ht, Ht0, <- !app_assoc. reflexivity.
    + exists (pre ++ [EInstrument (port cfg) (slave_address cfg)])%list.
      cbn [snd]. rewrite Ht0, <- app_assoc. reflexivity.
Qed.

Lemma fetch_value env city s t :
  fst (weather_modbus.get_current_temperature env city s) = Returned (VFloat t) ->
  weather_modbus.get_current_temperature env city s
  = (Returned (VFloat t),
     emit (ELogInfo (MsgWeatherReceived t))
       (emit (EGet (weather_url city) 10) (bump_get s))).
Proof.
  unfold weather_modbus.get_current_temperature, try_except2,
    weather_modbus.raise_for_status, weather_modbus.response_json,
    bind, gets, modify, lift, ret, raise, log_info, log_error.
  cbn [fst snd]. fold (weather_url city).
  destruct (requests_get env (n_get s) (weather_url city)) as [resp|e].
  2:{ destruct (is_RequestException e); [discriminate|].
      destruct (is_parse_error e); discriminate. }
  destruct ((400 <=? status_code resp) && (status_code resp <? 600));
    [discriminate|].
  destruct (json_body resp) as [data|e].
  2:{ destruct (is_RequestException e); [discriminate|].
      destruct (is_parse_error e); discriminate. }
  destruct (json_getitem_str data _) as [cc|e].
  2:{ destruct (is_RequestException e); [discriminate|].
      destruct (is_parse_error e); discriminate. }
  destruct (json_getitem_0 cc) as [first|e].
  2:{ destruct (is_RequestException e); [discriminate|].
      destruct (is_parse_error e); discriminate. }
  destruct (json_getitem_str first _) as [tc|e].
  2:{ destruct (is_RequestException e); [discriminate|].
      destruct (is_parse_error e); discriminate. }
  destruct (json_float tc) as [f|e].
  2:{ destruct (is_RequestException e); [discriminate|].
      destruct (is_parse_error e); discriminate. }
  cbn [fst]. intros H. inversion H; subst. reflexivity.
Qed.

(** X16. One cycle of the weather bridge with a reading: when the fetch
    returns the float [t], a session is held or can be opened, [t * 10] is
    finite and no Ctrl+C arrives, the cycle calls [write_register] exactly
    once, for register 4096 with function code 6 and the value
    [round_toward_zero(t * 10)], and then returns normally whether the
    slave accepted the frame or not: a failed write does not end the
    cycle. *)
Theorem weather_cycle_writes_once env cfg city s t v :
  transport_errors_ordinary env ->
  fst (weather_modbus.get_current_temperature env city s) = Returned (VFloat t) ->
  session_available env s ->
  Float.trunc (Float.mul t Float.ten) = Some v ->
  (forall k, sleep_interrupted env k = false) ->
  fst (weather_modbus.cycle env cfg city s) = Returned tt
  /\ filter is_write_event (emitted s (snd (weather_modbus.cycle env cfg city s)))
     = [EWriteRegister 4096 v 6].
Proof.
  intros Hord Hfetch Hav Hv Hsleep.
  apply fetch_value in Hfetch.
  set (s1 := emit (ELogInfo (MsgWeatherReceived t))
               (emit (EGet (weather_url city) 10) (bump_get s))) in *.
  destruct (write_temperature_outcome env cfg weather_modbus.WEATHER_REGISTER
              (VFloat t) s1 Hord) as (b & s2 & Hw & [_ _ Hwr Hsess]).
  destruct (write_temperature_extends env cfg weather_modbus.WEATHER_REGISTER
              (VFloat t) s1 Hord) as (new & Hnew).
  rewrite Hw in Hnew. cbn [snd] in Hnew.
  assert (Hrun : weather_modbus.cycle env cfg city s
                 = (Returned tt,
                    emit (ESleep 300000)
                      (bump_sleep
                         (emit (EPrint (MsgWeatherWritten (VFloat t)
                                          weather_modbus.WEATHER_REGISTER b))
                            s2)))).
  { unfold weather_modbus.cycle. unfold bind at 1. rewrite Hfetch.
    cbv beta iota. cbn [is_None]. unfold bind at 1 2. rewrite Hw.
    cbv beta iota.
    unfold time_sleep, print.
    unfold bind, lift, py_format_f, ret, modify, gets, raise.
    cbn [fst snd]. rewrite Hsleep. reflexivity. }
  rewrite Hrun. cbn [fst snd]. split; [reflexivity|].
  assert (Hq : quantize (VFloat t) = Ok v)
    by (rewrite quantize_float; apply to_int_trunc; exact Hv).
  assert (Hfil : filter is_write_event (emitted s1 s2)
                 = [EWriteRegister 4096 v 6]).
  { destruct Hwr as [(-> & _ & _ & [(e & He)|(Hi & Hrej)])|(v' & Hq' & _ & Hf & _)].
    - congruence.
    - destruct Hav as [Hav|(Hn & Hc)]; [contradiction|].
      destruct Hrej; contradiction.
    - assert (v' = v) by congruence. subst v'. exact Hf. }
  rewrite (emitted_app s _
             (ESleep 300000
                :: EPrint (MsgWeatherWritten (VFloat t)
                             weather_modbus.WEATHER_REGISTER b)
                :: new ++ [ELogInfo (MsgWeatherReceived t);
                           EGet (weather_url city) 10])%list).
  2:{ cbn [trace emit bump_sleep app]. rewrite Hnew. subst s1.
      cbn [trace emit bump_get]. rewrite <- app_assoc. reflexivity. }
  rewrite (emitted_app s1 s2 new Hnew) in Hfil.
  cbn [rev]. rewrite !rev_app_distr. cbn [rev app].
  rewrite <- !app_assoc. cbn [app filter is_write_event].
  rewrite !filter_app, Hfil. reflexivity.
Qed.

Lemma weather_cycle_writes_once_witness :
  fst (weather_modbus.cycle thirteen_degrees_env modbus_config (lit "Kurgan")
         initial_state) = Returned tt
  /\ filter is_write_event
       (emitted initial_state
          (snd (weather_modbus.cycle thirteen_degrees_env modbus_config
                  (lit "Kurgan") initial_state)))
     = [EWriteRegister 4096 130 6].
Proof.
  apply (weather_cycle_writes_once thirteen_degrees_env modbus_config
           (lit "Kurgan") initial_state (Float.of_Z 13) 130).
  - solve_ordinary.
  - reflexivity.
  - right. split; reflexivity.
  - reflexivity.
  - intros k. reflexivity.
Defined.

Lemma connect_keeps_sources env cfg s :
  transport_errors_ordinary env ->
  n_get (snd (connect env cfg s)) = n_get s.
Proof.
  intros (Hn & Hc & _).
  unfold connect, try_except, bind, gets, modify, log_info, log_error, raise.
  cbn [fst snd].
  destruct (Instrument_new env (n_connect s)) as [e|] eqn:En; cbn.
  - rewrite (Hn _ _ En). reflexivity.
  - destruct (serial_configure env (n_connect s)) as [e|] eqn:Ec; cbn.
    + rewrite (Hc _ _ Ec). reflexivity.
    + reflexivity.
Qed.

(** X17. Ctrl+C during the pause stops the weather bridge cleanly. When the
    first fetch fails and the interrupt arrives during the sleep that
    follows, [main] leaves the loop through its [KeyboardInterrupt]
    handler and returns "stopped by the user", not a critical error, after
    that one request and without any register write. *)
Theorem interrupt_stops_weather_main env ticks s :
  transport_errors_ordinary env ->
  fetch_fails (requests_get env (n_get s)
                 (weather_url (lit "Kurgan"))) ->
  sleep_interrupted env (n_sleep s) = true ->
  exists s',
    weather_modbus.main env (S ticks) s = (Returned ExitStoppedByUser, s')
    /\ n_write s' = n_write s
    /\ n_get s' = S (n_get s).
Proof.
  intros Hord Hf Hs.
  unfold weather_modbus.main, ModbusRTUWriter_init.
  unfold bind at 1 2 3. unfold modify at 1. cbn [fst snd].
  set (s0 := with_instrument None s).
  destruct (connect_returns env modbus_config s0 Hord)
    as (Hr & _ & _ & Hsl & Hw & _).
  pose proof (connect_keeps_sources env modbus_config s0 Hord) as Hg.
  destruct (connect env modbus_config s0) as [o s1]. cbn [fst snd] in *.
  subst o s0. cbn [n_sleep n_write n_get with_instrument] in Hsl, Hw, Hg.
  unfold print at 1. unfold modify at 1.
  set (s2 := emit (EPrint MsgBanner) s1).
  assert (Hf2 : fetch_fails (requests_get env (n_get s2)
                               (weather_url (lit "Kurgan"))))
    by (subst s2; cbn [n_get emit]; rewrite Hg; exact Hf).
  destruct (failed_fetch_returns_None env (lit "Kurgan") s2 Hf2) as (msg & Hfetch).
  assert (Hcycle : weather_modbus.cycle env modbus_config (lit "Kurgan") s2
                   = (Raised KeyboardInterrupt,
                      emit (ESleep 300000)
                        (bump_sleep
                           (emit (EPrint MsgWeatherFailed)
                              (emit (ELogError msg)
                                 (emit (EGet (weather_url (lit "Kurgan")) 10)
                                    (bump_get s2))))))).
  { unfold weather_modbus.cycle. unfold bind at 1. rewrite Hfetch.
    cbv beta iota. cbn [is_None]. unfold time_sleep, print.
    unfold bind, modify, gets, raise, ret. cbn [fst snd].
    subst s2. cbn [n_sleep emit bump_get]. rewrite Hsl, Hs. reflexivity. }
  unfold try_except2. cbn [while_true]. unfold bind at 1. rewrite Hcycle.
  cbv beta iota. cbn [is_KeyboardInterrupt].
  unfold print, log_info, bind, modify, ret. cbn [fst snd].
  eexists. split; [reflexivity|]. subst s2. cbn. split; congruence.
Qed.

Lemma interrupt_stops_weather_main_witness :
  exists s',
    weather_modbus.main
      {| glob_glob := fun _ _ => [];
         open_readlines := fun _ _ => Err OSError;
         Instrument_new := fun _ => None;
         serial_configure := fun _ => None;
         Instrument_write_register := fun _ _ _ _ => None;
         requests_get := fun _ _ => Err RequestsTimeout;
         sleep_interrupted := fun _ => true |} 1 initial_state
    = (Returned ExitStoppedByUser, s')
    /\ n_write s' = n_write initial_state
    /\ n_get s' = S (n_get initial_state).
Proof.
  apply (interrupt_stops_weather_main
           {| glob_glob := fun _ _ => [];
              open_readlines := fun _ _ => Err OSError;
              Instrument_new := fun _ => None;
              serial_configure := fun _ => None;
              Instrument_write_register := fun _ _ _ _ => None;
              requests_get := fun _ _ => Err RequestsTimeout;
              sleep_interrupted := fun _ => true |} 0 initial_state).
  - solve_ordinary.
  - reflexivity.
  - reflexivity.
Defined.
